(** * report/script.js: the click handler of the HTML report

    The script installs one delegated click listener on the document.  The
    listener calls [hide_row] (toggle one summary/detail row pair) and then
    [button] (expand or collapse every pair from the [main-menu] control).
    The only state is the DOM itself: the [class] and [style] attributes of
    the rows and the text of the menu control.

    The development embeds the three functions of the script over a small
    model of the DOM interface they use, and then establishes the
    properties of the specification. *)

From Stdlib Require Import ZArith Lia.
From Stdlib Require Import Strings.String Strings.Ascii.
From Stdlib Require Import Numbers.DecimalString Numbers.DecimalN.
From stdpp Require Import base option list strings gmap.

Local Open Scope string_scope.
Local Open Scope Z_scope.

(* ===================================================================== *)
(** ** JavaScript strings *)
(* ===================================================================== *)

Module JsString.

(** A value that is a string or [null], as [getAttribute] returns it. *)
Abbreviation nullable := (option string).

(** [ToString] on a string-or-null value, as applied by [RegExp.test]. *)
Definition of_nullable (v : nullable) : string :=
  match v with
  | Some s => s
  | None => "null"
  end.

(** [\d] of a non-unicode regular expression: the ten ASCII digits. *)
Definition is_digit (c : ascii) : bool :=
  match Ascii.is_nat c with
  | Some _ => true
  | None => false
  end.

Fixpoint all_digits (s : string) : bool :=
  match s with
  | "" => true
  | String c s' => is_digit c && all_digits s'
  end.

(** [strip_prefix p s] is the rest of [s] after the literal [p], if [s]
    starts with [p]. *)
Fixpoint strip_prefix (p s : string) : option string :=
  match p, s with
  | "", _ => Some s
  | String a p', String b s' =>
      if bool_decide (a = b) then strip_prefix p' s' else None
  | String _ _, "" => None
  end.

(** [s.split(sep)] for a one-character separator: never empty, and
    [[""]] on the empty string. *)
Fixpoint split (sep : ascii) (s : string) : list string :=
  match s with
  | "" => [""]
  | String c s' =>
      if bool_decide (c = sep) then "" :: split sep s'
      else match split sep s' with
           | h :: t => String c h :: t
           | [] => [String c ""]
           end
  end.

(** [a.at(-1)]: the last element, [undefined] on the empty array. *)
Definition at_last (a : list string) : option string := last a.

(** ASCII whitespace of the HTML standard, which separates the tokens of
    a [class] attribute: tab, line feed, form feed, carriage return and
    space. *)
Definition is_html_space (c : ascii) : bool :=
  match c with
  | "009" | "010" | "012" | "013" | " " => true
  | _ => false
  end%char.

(** The tokens of a [class] attribute value. *)
Fixpoint tokens_go (cur : string) (s : string) : list string :=
  match s with
  | "" => if bool_decide (cur = "") then [] else [String.rev cur]
  | String c s' =>
      if is_html_space c
      then (if bool_decide (cur = "") then [] else [String.rev cur])
             ++ tokens_go "" s'
      else tokens_go (String c cur) s'
  end.
Definition tokens (s : string) : list string := tokens_go "" s.

End JsString.

(* ===================================================================== *)
(** ** JavaScript numbers *)
(* ===================================================================== *)

(** The script only ever holds numbers that are integers (parsed from a
    run of digits, a row count, or one of these plus or minus a small
    constant), the infinity that a very long run of digits parses to, and
    the [NaN] that [Infinity % 2] yields.  A finite number is represented
    by its integer value, which is always a value of the binary64 format:
    [round] below is the only way the script's arithmetic produces one
    that is not a row count. *)

Module JsNumber.

Inductive number :=
| Fin (z : Z)
| Infinity
| NaN.

Global Instance number_eq_dec : EqDecision number.
Proof. solve_decision. Defined.

(** 2^53: below it every integer is a binary64 value. *)
Definition two53 : Z := 9007199254740992.

(** Round a non-negative integer to the nearest binary64 value, ties to
    the even significand; the result overflows to infinity from 2^1024
    on. *)
Definition round (z : Z) : number :=
  if z <? two53 then Fin z
  else
    let e := Z.log2 z - 52 in
    let q := Z.shiftr z e in
    let r := z - Z.shiftl q e in
    let half := Z.shiftl 1 (e - 1) in
    let q' := if (half <? r) || ((r =? half) && Z.odd q) then q + 1 else q in
    let m := Z.shiftl q' e in
    if 1024 <=? Z.log2 m then Infinity else Fin m.

(** Decimal numeral of a natural number, ["0"] for zero. *)
Definition decimal (n : N) : string :=
  NilZero.string_of_uint (N.to_uint n).

(** [Number(s)] for [s] a run of ASCII digits, the only strings the
    script converts (the identifier test guards the conversion, see
    [Number_of_table_id]): the decimal value, with the empty string
    giving 0, rounded to binary64.  [undefined] gives [NaN].  Strings
    with other characters are never converted by the script and are
    mapped to [NaN] here. *)
Definition Number (v : option string) : number :=
  match v with
  | None => NaN
  | Some s =>
      match NilEmpty.uint_of_string s with
      | Some d => round (Z.of_N (N.of_uint d))
      | None => NaN
      end
  end.

(** [x % 2 == 0]. *)
Definition is_even (x : number) : bool :=
  match x with
  | Fin z => bool_decide (Z.rem z 2 = 0)
  | Infinity | NaN => false
  end.

(** [x + 1]. *)
Definition succ (x : number) : number :=
  match x with
  | Fin z => round (z + 1)
  | Infinity => Infinity
  | NaN => NaN
  end.

(** *** [Number::toString]

    For a finite [m] from 2^53 on, the standard asks for the least
    number [k] of significant digits [s] such that [s * 10^(n-k)] rounds
    to [m]; among several [s] the closest to [m], and the even one on a
    tie.  With [len] the number of digits of [m]: either [10^len]
    already rounds to [m] (then [s = 1] and [n = len + 1]), or [n = len]
    and [s] is the quotient of [m] by [10^(len-k)] or its successor. *)

Definition rounds_to (v m : Z) : bool := bool_decide (round v = Fin m).

Fixpoint shortest_go (fuel : nat) (k len m : Z) : Z * Z :=
  match fuel with
  | O => (m, len)
  | S fuel' =>
      let p := 10 ^ (len - k) in
      let lo := m / p in
      let hi := lo + 1 in
      let ok_lo := rounds_to (lo * p) m in
      let ok_hi := (hi <? 10 ^ k) && rounds_to (hi * p) m in
      if ok_lo && ok_hi then
        let dlo := m - lo * p in
        let dhi := hi * p - m in
        if dlo <? dhi then (lo, k)
        else if dhi <? dlo then (hi, k)
        else if Z.even lo then (lo, k) else (hi, k)
      else if ok_lo then (lo, k)
      else if ok_hi then (hi, k)
      else shortest_go fuel' (k + 1) len m
  end.

(** The digits [s], their number [k], and the position [n] of the
    decimal point. *)
Definition shortest (m : Z) : Z * Z * Z :=
  let len := Z.of_nat (String.length (decimal (Z.to_N m))) in
  if rounds_to (10 ^ len) m then (1, 1, len + 1)
  else let '(s, k) := shortest_go 17 1 len m in (s, k, len).

Fixpoint zeros (n : nat) : string :=
  match n with
  | O => ""
  | S n' => String "0" (zeros n')
  end.

Definition ToString_nonneg (m : Z) : string :=
  if m <? two53 then decimal (Z.to_N m)
  else
    let '(s, k, n) := shortest m in
    let ds := decimal (Z.to_N s) in
    if n <=? 21 then ds +:+ zeros (Z.to_nat (n - k))
    else
      let mantissa :=
        match ds with
        | String c rest => if bool_decide (rest = "") then ds
                           else String c (String "." rest)
        | "" => ds
        end in
      mantissa +:+ "e+" +:+ decimal (Z.to_N (n - 1)).

Definition ToString (x : number) : string :=
  match x with
  | Fin z => if z <? 0 then "-" +:+ ToString_nonneg (- z)
             else ToString_nonneg z
  | Infinity => "Infinity"
  | NaN => "NaN"
  end.

End JsNumber.

Import JsString JsNumber.

(* ===================================================================== *)
(** ** The document *)
(* ===================================================================== *)

(** The script reaches the page through [getAttribute], [setAttribute],
    [textContent], [document.getElementById],
    [document.getElementsByClassName] and the [rows] collection of a
    table.  The page is modelled as the sequence of its elements in tree
    order; a node is a position in that sequence, so two elements with
    equal attributes remain distinct nodes.  An element has its
    attributes, its text, and the length of its [rows] collection when it
    has one (a table or a table section).  The menu control is taken to
    hold text only, so that assigning its [textContent] removes no
    element. *)

Module Dom.

Record element := Element {
  attrs : gmap string string;
  textContent : string;
  rows_length : option nat;
}.

Abbreviation document := (list element).
Abbreviation node := nat (only parsing).

Definition attr (name : string) (e : element) : nullable :=
  attrs e !! name.

Definition with_attr (name value : string) (e : element) : element :=
  {| attrs := <[name := value]> (attrs e);
     textContent := textContent e;
     rows_length := rows_length e |}.

Definition with_text (value : string) (e : element) : element :=
  {| attrs := attrs e;
     textContent := value;
     rows_length := rows_length e |}.

Definition has_id (id : string) (e : element) : Prop :=
  attr "id" e = Some id.

Global Instance has_id_dec id e : Decision (has_id id e).
Proof. unfold has_id. apply _. Defined.

(** A [class] attribute value bears the class [c] when [c] is one of
    its tokens. *)
Definition bears (c : string) (v : nullable) : Prop :=
  match v with
  | Some s => c ∈ tokens s
  | None => False
  end.

Global Instance bears_dec c v : Decision (bears c v).
Proof. destruct v; cbn; apply _. Defined.

Definition has_class (c : string) (e : element) : Prop :=
  bears c (attr "class" e).

Global Instance has_class_dec c e : Decision (has_class c e).
Proof. unfold has_class. apply _. Defined.

(** The first element in tree order with the identifier. *)
Definition element_by_id (id : string) (d : document) : option node :=
  fst <$> list_find (has_id id) d.

(** The first element in tree order bearing the class. *)
Definition first_by_class (c : string) (d : document) : option node :=
  fst <$> list_find (has_class c) d.

(** What a faulting statement dereferenced. *)
Inductive missing :=
| NotAnElement (n : node)
    (** the event target is not an element of the page *)
| NullString
    (** [split] called on a [null] identifier *)
| NoElementWithId (id : string)
    (** [getElementById(id)] was [null] *)
| NoElementWithClass (c : string)
    (** [getElementsByClassName(c)[0]] was [undefined] *)
| NoRows (n : node)
    (** the element has no [rows] collection *).

Inductive completion (A : Type) :=
| Normal (a : A)
| Throw (e : missing).
Global Arguments Normal {A} a.
Global Arguments Throw {A} e.

(** A statement runs on the page and completes normally or throws a
    [TypeError]; what it changed before throwing stays changed. *)
Definition M (A : Type) : Type := document → completion A * document.

Global Instance M_ret : MRet M := λ A a d, (Normal a, d).
Global Instance M_bind : MBind M := λ A B f m d,
  match m d with
  | (Normal a, d') => f a d'
  | (Throw e, d') => (Throw e, d')
  end.

Definition throw {A} (e : missing) : M A := λ d, (Throw e, d).

(** A reference obtained from a lookup, dereferenced. *)
Definition deref (r : option node) (e : missing) : M node :=
  match r with
  | Some n => mret n
  | None => throw e
  end.

Definition getAttribute (n : node) (name : string) : M nullable :=
  λ d, match d !! n with
       | Some e => (Normal (attr name e), d)
       | None => (Throw (NotAnElement n), d)
       end.

Definition setAttribute (n : node) (name value : string) : M unit :=
  λ d, match d !! n with
       | Some _ => (Normal (), alter (with_attr name value) n d)
       | None => (Throw (NotAnElement n), d)
       end.

Definition get_textContent (n : node) : M string :=
  λ d, match d !! n with
       | Some e => (Normal (textContent e), d)
       | None => (Throw (NotAnElement n), d)
       end.

Definition set_textContent (n : node) (value : string) : M unit :=
  λ d, match d !! n with
       | Some _ => (Normal (), alter (with_text value) n d)
       | None => (Throw (NotAnElement n), d)
       end.

Definition getElementById (id : string) : M (option node) :=
  λ d, (Normal (element_by_id id d), d).

(** [document.getElementsByClassName(c)[0].rows.length]. *)
Definition first_rows_length (c : string) : M Z :=
  λ d, match first_by_class c d with
       | None => (Throw (NoElementWithClass c), d)
       | Some n =>
           match d !! n ≫= rows_length with
           | Some len => (Normal (Z.of_nat len), d)
           | None => (Throw (NoRows n), d)
           end
       end.

(** [for (let i = start; i > 0; i = i - 2) body(i)].  The loop needs at
    most [start] iterations, which is the fuel [for_down] gives it. *)
Fixpoint for_down_fuel (fuel : nat) (i : Z) (body : Z → M unit) : M unit :=
  match fuel with
  | O => mret ()
  | S fuel' =>
      if bool_decide (i > 0)
      then body i ;; for_down_fuel fuel' (i - 2) body
      else mret ()
  end.

Definition for_down (start : Z) (body : Z → M unit) : M unit :=
  for_down_fuel (Z.to_nat start) start body.

(** The values [i] takes in that loop, in order. *)
Fixpoint down_indices_fuel (fuel : nat) (i : Z) : list Z :=
  match fuel with
  | O => []
  | S fuel' =>
      if bool_decide (i > 0)
      then i :: down_indices_fuel fuel' (i - 2)
      else []
  end.

Definition down_indices (start : Z) : list Z :=
  down_indices_fuel (Z.to_nat start) start.

(** Statements run one after the other. *)
Definition sequence (body : Z → M unit) (l : list Z) : M unit :=
  foldr (λ i rest, body i ;; rest) (mret ()) l.

End Dom.

Import Dom.

(* ===================================================================== *)
(** ** The script *)
(* ===================================================================== *)

Definition row_prefix : string := "result-table-row-".
Definition row_hide : string := "row-hide".
Definition Null : string := "Null".
Definition border_green : string := "border-left: 5px solid green;".
Definition main_menu : string := "main-menu".
Definition result_table : string := "result-table".

(** ["result-table-row-" + Number(x)]. *)
Definition row_id_of (x : number) : string := row_prefix +:+ ToString x.
Definition row_id (i : Z) : string := row_id_of (Fin i).

(** [/^result-table-row-\d*$/.test(id)] *)
Definition isTableId (id : nullable) : bool :=
  match strip_prefix row_prefix (of_nullable id) with
  | Some rest => all_digits rest
  | None => false
  end.

(** [Number(element.split("-").at(-1))] *)
Definition row_number_of (element : nullable) : M number :=
  match element with
  | Some s => mret (Number (at_last (split "-" s)))
  | None => throw NullString
  end.

Definition hide_row (row_even : node) : M unit :=
  element ← getAttribute row_even "id";
  if isTableId element then
    row_number ← row_number_of element;
    if is_even row_number then
      r ← getElementById (row_id_of (succ row_number));
      row_odd ← deref r (NoElementWithId (row_id_of (succ row_number)));
      c ← getAttribute row_odd "class";
      if bool_decide (c ≠ Some row_hide) then
        setAttribute row_odd "class" row_hide;;
        setAttribute row_even "style" Null
      else
        setAttribute row_odd "class" Null;;
        setAttribute row_even "style" border_green
    else mret ()
  else mret ().

(** The body shared by the two loops of [button]: the odd row gets the
    class, then the even row before it gets the style. *)
Definition mark_pair (class_value style_value : string) (i : Z) : M unit :=
  r ← getElementById (row_id i);
  row_odd ← deref r (NoElementWithId (row_id i));
  setAttribute row_odd "class" class_value;;
  r' ← getElementById (row_id (i - 1));
  row_even ← deref r' (NoElementWithId (row_id (i - 1)));
  setAttribute row_even "style" style_value.

Definition button (target : node) : M unit :=
  element ← getAttribute target "id";
  if bool_decide (element = Some main_menu) then
    r ← getElementById main_menu;
    span_text ← deref r (NoElementWithId main_menu);
    text ← get_textContent span_text;
    if bool_decide (text = "Expand") then
      set_textContent span_text "Collapse";;
      len ← first_rows_length result_table;
      let odd_rows := len - 1 in
      for_down odd_rows (mark_pair Null border_green)
    else
      set_textContent span_text "Expand";;
      len ← first_rows_length result_table;
      let odd_rows := len - 1 in
      for_down odd_rows (mark_pair row_hide Null)
  else mret ().

(** The listener: [hide_row(target); button(target);]. *)
Definition click (target : node) : M unit :=
  hide_row target;; button target.

(** *** A page to run the script on *)

Definition mk (id class : nullable) (text : string) (rows : option nat)
  : element :=
  {| attrs :=
       let with_id (m : gmap string string) :=
         match id with Some v => <["id" := v]> m | None => m end in
       let with_class (m : gmap string string) :=
         match class with Some v => <["class" := v]> m | None => m end in
       with_id (with_class ∅);
     textContent := text;
     rows_length := rows |}.

(** The menu control, a table of four rows without a header, and the
    four rows (two pairs), none hidden and none bordered. *)
Definition page : document :=
  [ mk (Some "main-menu") None "Expand" None;
    mk None (Some "table result-table") "" (Some 4%nat);
    mk (Some "result-table-row-0") None "" None;
    mk (Some "result-table-row-1") None "" None;
    mk (Some "result-table-row-2") None "" None;
    mk (Some "result-table-row-3") None "" None ].

(** Observations of a page. *)
Definition attr_of (name : string) (n : node) (d : document) : nullable :=
  d !! n ≫= attr name.
Definition class_of := attr_of "class".
Definition style_of := attr_of "style".
Definition id_of := attr_of "id".
Definition text_of (n : node) (d : document) : option string :=
  textContent <$> d !! n.

(** The page after a click, and how the click completed. *)
Definition after {A} (m : M A) (d : document) : document := snd (m d).
Definition outcome {A} (m : M A) (d : document) : completion A := fst (m d).

(** The identifiers of a page, element by element: all that a lookup by
    identifier sees. *)
Definition ids (d : document) : list nullable := attr "id" <$> d.

(** [marked cv sv d d']: page [d'] is page [d] where some [class]
    attributes were set to [cv] and some [style] attributes to [sv], and
    nothing else changed. *)
Definition marked (cv sv : string) (d d' : document) : Prop :=
  length d' = length d
  ∧ (∀ n, text_of n d' = text_of n d)
  ∧ ∀ n name,
      attr_of name n d' = attr_of name n d
      ∨ (name = "class" ∧ attr_of name n d' = Some cv)
      ∨ (name = "style" ∧ attr_of name n d' = Some sv).

(** What the menu control does for a label: the new label, the class for
    the odd rows and the style for the even rows. *)
Definition menu_action (label : string) : string * string * string :=
  if bool_decide (label = "Expand")
  then ("Collapse", Null, border_green)
  else ("Expand", row_hide, Null).

(** *** The pages the specification talks about *)

(** Every row from 0 to [last] is on the page. *)
Definition every_row_present (d : document) (last : Z) : Prop :=
  ∀ k, 0 ≤ k ≤ last → is_Some (element_by_id (row_id k) d).

(** The clicked element [t] is identified [main-menu]; the menu control
    [m] (the first element so identified) shows [label]; the first
    element of class [result-table] has [last + 1] rows, all of them on
    the page and forming complete pairs. *)
Definition menu_page (d : document) (t m : nat) (label : string) (last : Z)
  : Prop :=
  id_of t d = Some main_menu
  ∧ element_by_id main_menu d = Some m
  ∧ text_of m d = Some label
  ∧ (∃ tb len, first_by_class result_table d = Some tb
               ∧ d !! tb ≫= rows_length = Some len
               ∧ last = Z.of_nat len - 1)
  ∧ Z.odd last = true
  ∧ every_row_present d last.

(** The same table with a header row counted by [rows.length]. *)
Definition page_with_header : document :=
  [ mk (Some "main-menu") None "Expand" None;
    mk None (Some "result-table") "" (Some 5%nat);
    mk (Some "result-table-row-0") None "" None;
    mk (Some "result-table-row-1") None "" None;
    mk (Some "result-table-row-2") None "" None;
    mk (Some "result-table-row-3") None "" None ].

(** [page] with every detail row shown and the menu reading "Collapse". *)
Definition page_collapse : document :=
  [ mk (Some "main-menu") None "Collapse" None;
    mk None (Some "result-table") "" (Some 4%nat);
    mk (Some "result-table-row-0") None "" None;
    mk (Some "result-table-row-1") (Some "Null") "" None;
    mk (Some "result-table-row-2") None "" None;
    mk (Some "result-table-row-3") (Some "Null") "" None ].

(** A summary row whose detail row is not on the page. *)
Definition page_without_sibling : document :=
  [ mk (Some "main-menu") None "Expand" None;
    mk None (Some "result-table") "" (Some 1%nat);
    mk (Some "result-table-row-0") None "" None ].

(** An element identified by the bare prefix, next to rows 0 and 1. *)
Definition page_bare_prefix : document :=
  [ mk (Some "result-table-row-") None "" None;
    mk (Some "result-table-row-0") None "" None;
    mk (Some "result-table-row-1") None "" None ].

(** The page after the row-pair toggle with clicked row [t] and sibling
    [j]. *)
Definition toggled (t j : node) (d : document) : document :=
  if bool_decide (class_of j d ≠ Some row_hide)
  then alter (with_attr "style" Null) t
         (alter (with_attr "class" row_hide) j d)
  else alter (with_attr "style" border_green) t
         (alter (with_attr "class" Null) j d).

(** Rows 0 to 3 are on the page, none hidden and none bordered. *)
Definition rows_0_3_plain (d : document) : Prop :=
  ∀ k, 0 ≤ k ≤ 3 →
    ∃ j, element_by_id (row_id k) d = Some j
         ∧ class_of j d ≠ Some row_hide
         ∧ style_of j d ≠ Some border_green.

(** The two states of a pair that [hide_row] itself produces: detail row
    hidden and summary row unmarked, or detail row shown and summary row
    bordered. *)
Definition in_cycle (t j : nat) (d : document) : Prop :=
  (class_of j d = Some row_hide ∧ style_of t d = Some Null)
  ∨ (class_of j d = Some Null ∧ style_of t d = Some border_green).

(** What a faulting statement dereferenced is not on the page: no element
    has the identifier, no element bears the class, or the element has no
    [rows] collection. *)
Definition not_on_page (d : document) (x : missing) : Prop :=
  match x with
  | NoElementWithId id => element_by_id id d = None
  | NoElementWithClass c => first_by_class c d = None
  | NoRows n => d !! n ≫= rows_length = None
  | NotAnElement _ | NullString => False
  end.

(** The row-pair toggle for the clicked element [t] taken as row [i]. *)
Definition pair_toggle (t : nat) (i : Z) (d : document)
  : completion () * document :=
  match element_by_id (row_id (i + 1)) d with
  | Some j => (Normal (), toggled t j d)
  | None => (Throw (NoElementWithId (row_id (i + 1))), d)
  end.

(** *** The claims of the specification that the script does not meet,
    as the specification words them *)

(** "Clicking [main-menu] when its text is Expand sets text to Collapse
    and results in every odd row hidden and every even row bordered." *)
Definition expand_click_hides_details : Prop :=
  ∀ d t m last, menu_page d t m "Expand" last →
    outcome (click t) d = Normal ()
    ∧ text_of m (after (click t) d) = Some "Collapse"
    ∧ ∀ k j, 0 ≤ k ≤ last → element_by_id (row_id k) d = Some j →
        (Z.odd k = true → class_of j (after (click t) d) = Some row_hide)
        ∧ (Z.even k = true →
           style_of j (after (click t) d) = Some border_green).

(** "Clicking [main-menu] again restores text to Expand and clears all
    hidden/border markers." *)
Definition collapse_click_shows_details : Prop :=
  ∀ d t m label last, menu_page d t m label last → label ≠ "Expand" →
    outcome (click t) d = Normal ()
    ∧ text_of m (after (click t) d) = Some "Expand"
    ∧ ∀ k j, 0 ≤ k ≤ last → element_by_id (row_id k) d = Some j →
        (Z.odd k = true → class_of j (after (click t) d) ≠ Some row_hide)
        ∧ (Z.even k = true →
           style_of j (after (click t) d) ≠ Some border_green).

(** "The loop from the row count minus one (accounting for a header row)
    down to 1 with step -2 visits exactly the odd row indices." *)
Definition loop_visits_odd_rows : Prop :=
  ∀ len : nat,
    let last := Z.of_nat len - 1 in
    ∀ i, i ∈ down_indices last ↔ 0 < i ≤ last ∧ Z.odd i = true.

(** "Click [result-table-row-0]: row 1 gets class [row-hide], row 0 gets
    style [border-left: 5px solid green;].  Click again: row 1 class
    cleared, row 0 style becomes [Null]." *)
Definition scenario_as_written : Prop :=
  ∀ d t j, rows_0_3_plain d → id_of t d = Some (row_id 0) →
    element_by_id (row_id 1) d = Some j →
    let d1 := after (click t) d in
    let d2 := after (click t) d1 in
    class_of j d1 = Some row_hide
    ∧ style_of t d1 = Some border_green
    ∧ class_of j d2 = Some Null
    ∧ style_of t d2 = Some Null.

(** "Clicking again restores the original state", from any starting
    attribute state. *)
Definition two_clicks_restore : Prop :=
  ∀ d t i j, id_of t d = Some (row_id i) → 0 ≤ i < two53 →
    Z.even i = true → element_by_id (row_id (i + 1)) d = Some j →
    let d2 := after (click t) (after (click t) d) in
    class_of j d2 = class_of j d ∧ style_of j d2 = style_of j d
    ∧ class_of t d2 = class_of t d ∧ style_of t d2 = style_of t d.

(** *** Further pages *)

(** A row written with leading zeros, next to row 1. *)
Definition page_leading_zeros : document :=
  [ mk (Some "result-table-row-000") None "" None;
    mk (Some "result-table-row-1") None "" None ].

(** Two rows numbered beyond 2^53. *)
Definition page_large_numbers : document :=
  [ mk (Some "result-table-row-9007199254740993") None "" None;
    mk (Some "result-table-row-9007199254740992") None "" None ].

(** A table of five rows: two pairs and a summary row without its
    detail row. *)
Definition page_five_rows : document :=
  [ mk (Some "main-menu") None "Expand" None;
    mk None (Some "result-table") "" (Some 5%nat);
    mk (Some "result-table-row-0") None "" None;
    mk (Some "result-table-row-1") None "" None;
    mk (Some "result-table-row-2") None "" None;
    mk (Some "result-table-row-3") None "" None;
    mk (Some "result-table-row-4") None "" None ].

(** *** What a click may change *)

(** Element [e'] is element [e] except that its [class] may have been
    set to ["row-hide"] or ["Null"] and its [style] to ["Null"] or the
    green border: no other attribute differs, none is removed, and the
    [rows] collection is the same. *)
Definition restyles (e e' : element) : Prop :=
  rows_length e' = rows_length e
  ∧ ∀ name,
      attr name e' = attr name e
      ∨ (name = "class"
         ∧ (attr name e' = Some row_hide ∨ attr name e' = Some Null))
      ∨ (name = "style"
         ∧ (attr name e' = Some Null ∨ attr name e' = Some border_green)).

(** Page [d'] has the elements of page [d], restyled, with their text. *)
Definition restyled (d d' : document) : Prop :=
  length d' = length d
  ∧ ∀ n e, d !! n = Some e →
      ∃ e', d' !! n = Some e' ∧ restyles e e'
            ∧ textContent e' = textContent e.

(** The same, except that the menu control may read "Expand" or
    "Collapse" instead of what it read. *)
Definition click_frame (d d' : document) : Prop :=
  length d' = length d
  ∧ ∀ n e, d !! n = Some e →
      ∃ e', d' !! n = Some e' ∧ restyles e e'
            ∧ (textContent e' = textContent e
               ∨ (element_by_id main_menu d = Some n
                  ∧ (textContent e' = "Expand"
                     ∨ textContent e' = "Collapse"))).

(* ===================================================================== *)
(** ** Identifiers and row numbers *)
(* ===================================================================== *)

Section identifiers.

Lemma app_cons a p s : String a p +:+ s = String a (p +:+ s).
Proof. reflexivity. Qed.

Lemma app_empty s : "" +:+ s = s.
Proof. reflexivity. Qed.

Lemma strip_prefix_app p s : strip_prefix p (p +:+ s) = Some s.
Proof.
  induction p as [|a p IH]; [done|].
  rewrite app_cons. cbn. by rewrite bool_decide_eq_true_2.
Qed.

Lemma strip_prefix_Some p s r : strip_prefix p s = Some r → s = p +:+ r.
Proof.
  revert s. induction p as [|a p IH]; intros s H.
  - cbn in H. by simplify_eq.
  - destruct s as [|b s]; [done|]. cbn in H.
    case_bool_decide; [|done]. subst b. rewrite app_cons. f_equal. by apply IH.
Qed.

Lemma all_digits_uint d : all_digits (NilEmpty.string_of_uint d) = true.
Proof. induction d; cbn; auto. Qed.

Lemma to_uint_nonnil n : N.to_uint n ≠ Decimal.Nil.
Proof. destruct n; cbn; [done|]. apply DecimalPos.Unsigned.to_uint_nonnil. Qed.

Lemma decimal_nil_empty n :
  decimal n = NilEmpty.string_of_uint (N.to_uint n).
Proof.
  unfold decimal, NilZero.string_of_uint.
  pose proof (to_uint_nonnil n). by destruct (N.to_uint n).
Qed.

Lemma all_digits_decimal n : all_digits (decimal n) = true.
Proof. rewrite decimal_nil_empty. apply all_digits_uint. Qed.

Lemma uint_of_decimal n :
  NilEmpty.uint_of_string (decimal n) = Some (N.to_uint n).
Proof. rewrite decimal_nil_empty. apply NilEmpty.usu. Qed.

Lemma all_digits_parse s :
  all_digits s = true → is_Some (NilEmpty.uint_of_string s).
Proof.
  induction s as [|c s IH]; cbn; [eauto|].
  intros [Hc Hs]%andb_true_iff. destruct (IH Hs) as [d ->].
  unfold is_digit, Ascii.is_nat in Hc.
  destruct c as [[] [] [] [] [] [] [] []]; try discriminate Hc; cbn; eauto.
Qed.

(** The separator is not a digit: a run of digits is one segment. *)
Lemma split_digits s : all_digits s = true → split "-" s = [s].
Proof.
  induction s as [|c s IH]; cbn; [done|].
  intros [Hc Hs]%andb_true_iff. rewrite (IH Hs).
  case_bool_decide; [|done]. by subst c.
Qed.

Lemma split_cons sep s : ∃ h t, split sep s = h :: t.
Proof.
  induction s as [|c s (h & t & IH)]; cbn; [eauto|].
  rewrite IH. case_bool_decide; eauto.
Qed.

Lemma last_split_app sep p s :
  last (split sep (p +:+ String sep s)) = last (split sep s)
  ∧ ∃ h h' t, split sep (p +:+ String sep s) = h :: h' :: t.
Proof.
  destruct (split_cons sep s) as (h0 & t0 & Hs).
  induction p as [|c p [IH (h & h' & t & Ht)]];
    [rewrite app_empty|rewrite app_cons]; cbn.
  - rewrite bool_decide_eq_true_2 by done. rewrite Hs. eauto.
  - rewrite Ht in IH |- *. case_bool_decide; [eauto|].
    split; [|eauto]. by rewrite <-IH.
Qed.

(** The segment after the last ["-"] of an accepted identifier is its
    run of digits. *)
Lemma at_last_split ds :
  all_digits ds = true →
  at_last (split "-" (row_prefix +:+ ds)) = Some ds.
Proof.
  intros Hds. unfold at_last.
  change (row_prefix +:+ ds) with ("result-table-row" +:+ String "-" ds).
  rewrite (proj1 (last_split_app _ _ _)). by rewrite split_digits.
Qed.

(** What the identifier test accepts. *)
Lemma isTableId_spec id :
  isTableId id = true ↔
  ∃ ds, id = Some (row_prefix +:+ ds) ∧ all_digits ds = true.
Proof.
  unfold isTableId. split.
  - destruct id as [s|]; [|done]. cbn [of_nullable].
    destruct (strip_prefix row_prefix s) as [r|] eqn:E; [|done].
    intros Hr. exists r. by rewrite (strip_prefix_Some _ _ _ E).
  - intros (ds & -> & Hds). cbn [of_nullable].
    by rewrite strip_prefix_app.
Qed.

(** On an accepted identifier the conversion is the decimal value of the
    digits, rounded: never [NaN]. *)
Lemma Number_of_table_id ds :
  all_digits ds = true →
  ∃ u, NilEmpty.uint_of_string ds = Some u
       ∧ Number (at_last (split "-" (row_prefix +:+ ds)))
         = round (Z.of_N (N.of_uint u)).
Proof.
  intros Hds. destruct (all_digits_parse _ Hds) as [u Hu].
  exists u. split; [done|]. rewrite at_last_split by done.
  cbn. by rewrite Hu.
Qed.

Lemma round_exact z : z < two53 → round z = Fin z.
Proof. intros H. unfold round. by rewrite (proj2 (Z.ltb_lt _ _) H). Qed.

Lemma ToString_exact z :
  0 ≤ z < two53 → ToString (Fin z) = decimal (Z.to_N z).
Proof.
  intros [H0 H1]. cbn. rewrite (proj2 (Z.ltb_ge _ _) H0).
  unfold ToString_nonneg. by rewrite (proj2 (Z.ltb_lt _ _) H1).
Qed.

Lemma row_id_exact i :
  0 ≤ i < two53 → row_id i = row_prefix +:+ decimal (Z.to_N i).
Proof. intros H. unfold row_id, row_id_of. by rewrite ToString_exact. Qed.

Lemma isTableId_row_id i :
  0 ≤ i < two53 → isTableId (Some (row_id i)) = true.
Proof.
  intros H. apply isTableId_spec. eexists. split.
  - by rewrite row_id_exact.
  - apply all_digits_decimal.
Qed.

Lemma Number_row_id i :
  0 ≤ i < two53 → Number (at_last (split "-" (row_id i))) = Fin i.
Proof.
  intros H. rewrite row_id_exact by done.
  rewrite at_last_split by apply all_digits_decimal.
  cbn. rewrite uint_of_decimal, DecimalN.Unsigned.of_to.
  rewrite Z2N.id by lia. apply round_exact. lia.
Qed.

Lemma row_id_inj i j :
  0 ≤ i < two53 → 0 ≤ j < two53 → row_id i = row_id j → i = j.
Proof.
  intros Hi Hj E. rewrite !row_id_exact in E by done.
  apply (inj (String.app row_prefix)) in E.
  assert (N.to_uint (Z.to_N i) = N.to_uint (Z.to_N j)) as E'.
  { apply (inj Some). by rewrite <-!uint_of_decimal, E. }
  apply DecimalN.Unsigned.to_uint_inj in E'. lia.
Qed.

Lemma row_id_not_menu i : 0 ≤ i < two53 → row_id i ≠ main_menu.
Proof. intros H. by rewrite row_id_exact. Qed.

(** Beyond 2^53 the conversions round, as binary64 does: the theorems
    on rows therefore speak of row numbers below 2^53, the ones a
    JavaScript number holds exactly. *)
Example Number_rounds :
  Number (Some "9007199254740993") = Fin 9007199254740992
  ∧ succ (Fin 9007199254740992) = Fin 9007199254740992
  ∧ Number (Some "007") = Fin 7
  ∧ Number (Some "") = Fin 0.
Proof. by split_and!. Qed.

Example ToString_large :
  ToString (round (2 ^ 53 + 2)) = "9007199254740994"
  ∧ ToString (round (2 ^ 64)) = "18446744073709552000"
  ∧ ToString (round (10 ^ 23)) = "1e+23"
  ∧ ToString (round (2 ^ 70)) = "1.1805916207174113e+21"
  ∧ ToString (round (2 ^ 1024)) = "Infinity".
Proof. split_and!; vm_compute; reflexivity. Qed.

Example split_examples :
  split "-" "result-table-row-12" = ["result"; "table"; "row"; "12"]
  ∧ split "-" "result-table-row-" = ["result"; "table"; "row"; ""]
  ∧ split "-" "" = [""].
Proof. by split_and!. Qed.

End identifiers.

(* ===================================================================== *)
(** ** Running statements *)
(* ===================================================================== *)

Section running.

Lemma run_bind {A B} (m : M A) (f : A → M B) d :
  (m ≫= f) d =
  match m d with
  | (Normal a, d') => f a d'
  | (Throw e, d') => (Throw e, d')
  end.
Proof. reflexivity. Qed.

Lemma run_ret {A} (a : A) d : mret (M := M) a d = (Normal a, d).
Proof. reflexivity. Qed.

Lemma run_getAttribute n name d e :
  d !! n = Some e → getAttribute n name d = (Normal (attr name e), d).
Proof. intros H. unfold getAttribute. by rewrite H. Qed.

Lemma run_setAttribute n name value d :
  is_Some (d !! n) →
  setAttribute n name value d
  = (Normal (), alter (with_attr name value) n d).
Proof. intros [e H]. unfold setAttribute. by rewrite H. Qed.

Lemma run_get_textContent n d e :
  d !! n = Some e → get_textContent n d = (Normal (textContent e), d).
Proof. intros H. unfold get_textContent. by rewrite H. Qed.

Lemma run_set_textContent n value d :
  is_Some (d !! n) →
  set_textContent n value d = (Normal (), alter (with_text value) n d).
Proof. intros [e H]. unfold set_textContent. by rewrite H. Qed.

Lemma run_getElementById id d :
  getElementById id d = (Normal (element_by_id id d), d).
Proof. reflexivity. Qed.

Lemma run_deref_Some n e d : deref (Some n) e d = (Normal n, d).
Proof. reflexivity. Qed.

Lemma run_deref_None e d : deref None e d = (Throw e, d).
Proof. reflexivity. Qed.

End running.

(* ===================================================================== *)
(** ** Lookups and updates *)
(* ===================================================================== *)

Section lookups.

Implicit Types (d : document) (e : element) (n j k : node).

Lemma element_by_id_ids id d :
  element_by_id id d = fst <$> list_find (λ o, o = Some id) (ids d).
Proof.
  unfold element_by_id, ids. rewrite list_find_fmap.
  change ((λ o, o = Some id) ∘ attr "id") with (has_id id).
  by destruct (list_find (has_id id) d) as [[]|].
Qed.

Lemma element_by_id_same_ids id d' d :
  ids d' = ids d → element_by_id id d' = element_by_id id d.
Proof. intros H. by rewrite !element_by_id_ids, H. Qed.

Lemma element_by_id_Some id d j :
  element_by_id id d = Some j →
  ∃ e, d !! j = Some e ∧ attr "id" e = Some id.
Proof.
  unfold element_by_id. intros H.
  destruct (list_find (has_id id) d) as [[i e]|] eqn:E; [|done].
  cbn in H. simplify_eq. apply list_find_Some in E as (? & ? & _). eauto.
Qed.

Lemma element_by_id_None id d :
  element_by_id id d = None
  ↔ ∀ j e, d !! j = Some e → attr "id" e ≠ Some id.
Proof.
  unfold element_by_id. rewrite fmap_None, list_find_None, Forall_lookup.
  reflexivity.
Qed.

Lemma element_by_id_found id d n e :
  d !! n = Some e → attr "id" e = Some id → is_Some (element_by_id id d).
Proof.
  intros Hn He. destruct (element_by_id id d) eqn:E; [eauto|].
  rewrite element_by_id_None in E. by destruct (E n e Hn).
Qed.

Lemma first_by_class_alter c f n d :
  (∀ e, attr "class" (f e) = attr "class" e) →
  first_by_class c (alter f n d) = first_by_class c d.
Proof.
  intros Hf.
  assert (∀ d, first_by_class c d
               = fst <$> list_find (bears c) (attr "class" <$> d)) as E.
  { intros d0. unfold first_by_class. rewrite list_find_fmap.
    change (bears c ∘ attr "class") with (has_class c).
    by destruct (list_find (has_class c) d0) as [[]|]. }
  rewrite !E. f_equal. f_equal. apply list_eq. intros k.
  rewrite !list_lookup_fmap, list_lookup_alter. case_decide; [|done].
  subst k. destruct (d !! n); cbn; [|done]. by rewrite Hf.
Qed.

Lemma rows_length_alter (f : element → element) n k d :
  (∀ e, rows_length (f e) = rows_length e) →
  alter f n d !! k ≫= rows_length = d !! k ≫= rows_length.
Proof.
  intros Hf. rewrite list_lookup_alter. case_decide; [|done].
  subst k. destruct (d !! n); cbn; [|done]. by rewrite Hf.
Qed.

Lemma ids_alter f n d :
  (∀ e, attr "id" (f e) = attr "id" e) → ids (alter f n d) = ids d.
Proof.
  intros Hf. unfold ids. apply list_eq. intros k.
  rewrite !list_lookup_fmap, list_lookup_alter. case_decide; [|done].
  subst k. destruct (d !! n); cbn; [|done]. by rewrite Hf.
Qed.

Lemma attr_with_attr_eq name value e :
  attr name (with_attr name value e) = Some value.
Proof. unfold attr. cbn. apply lookup_insert_eq. Qed.

Lemma attr_with_attr_ne name name' value e :
  name ≠ name' → attr name' (with_attr name value e) = attr name' e.
Proof. intros H. unfold attr. cbn. by apply lookup_insert_ne. Qed.

Lemma ids_set_attr name value n d :
  name ≠ "id" → ids (alter (with_attr name value) n d) = ids d.
Proof. intros H. apply ids_alter. intros e. by apply attr_with_attr_ne. Qed.

Lemma ids_set_text value n d : ids (alter (with_text value) n d) = ids d.
Proof. by apply ids_alter. Qed.

Lemma attr_of_set_eq name value n d :
  is_Some (d !! n) →
  attr_of name n (alter (with_attr name value) n d) = Some value.
Proof.
  intros [e H]. unfold attr_of. rewrite list_lookup_alter_eq, H. cbn.
  apply attr_with_attr_eq.
Qed.

Lemma attr_of_set_ne name name' value n k d :
  name ≠ name' →
  attr_of name' k (alter (with_attr name value) n d) = attr_of name' k d.
Proof.
  intros Hne. unfold attr_of. rewrite list_lookup_alter.
  case_decide; [|done]. subst k. destruct (d !! n); cbn; [|done].
  by apply attr_with_attr_ne.
Qed.

Lemma attr_of_set_other name name' value n k d :
  n ≠ k →
  attr_of name' k (alter (with_attr name value) n d) = attr_of name' k d.
Proof. intros Hne. unfold attr_of. by rewrite list_lookup_alter_ne. Qed.

Lemma attr_of_set_text name value n k d :
  attr_of name k (alter (with_text value) n d) = attr_of name k d.
Proof.
  unfold attr_of. rewrite list_lookup_alter. case_decide; [|done].
  subst k. by destruct (d !! n).
Qed.

Lemma text_of_set_attr name value n k d :
  text_of k (alter (with_attr name value) n d) = text_of k d.
Proof.
  unfold text_of. rewrite list_lookup_alter. case_decide; [|done].
  subst k. by destruct (d !! n).
Qed.

Lemma text_of_set_text_eq value n d :
  is_Some (d !! n) → text_of n (alter (with_text value) n d) = Some value.
Proof. intros [e H]. unfold text_of. by rewrite list_lookup_alter_eq, H. Qed.

Lemma lookup_alter_is_Some (f : element → element) n k d :
  is_Some (alter f n d !! k) ↔ is_Some (d !! k).
Proof. by rewrite !lookup_lt_is_Some, length_alter. Qed.

Lemma attr_of_lookup name n d e :
  d !! n = Some e → attr_of name n d = attr name e.
Proof. intros H. unfold attr_of. by rewrite H. Qed.

(** Writing back the value an attribute had is no change. *)
Lemma with_attr_restore name v w e :
  attr name e = Some v → with_attr name v (with_attr name w e) = e.
Proof.
  intros H. destruct e as [m t r]. unfold with_attr, attr in *. cbn in *.
  f_equal. rewrite insert_insert_eq. by apply insert_id.
Qed.

End lookups.

(* ===================================================================== *)
(** ** One click on a row: [hide_row] *)
(* ===================================================================== *)

Section hide_row.

Implicit Types (d : document) (e : element) (t j : node).

Lemma is_even_Fin z : 0 ≤ z → is_even (Fin z) = Z.even z.
Proof.
  intros Hz. cbn. rewrite Z.rem_mod_nonneg by lia.
  rewrite Zeven_mod. case_bool_decide as H; [by rewrite H|].
  symmetry. by apply Z.eqb_neq.
Qed.

Lemma even_below_two53 z : z < two53 → Z.even z = true → z + 1 < two53.
Proof.
  intros Hz [k ->]%Z.even_spec. unfold two53 in *. lia.
Qed.

Lemma hide_row_other t d e :
  d !! t = Some e → isTableId (attr "id" e) = false →
  hide_row t d = (Normal (), d).
Proof.
  intros Ht Hid. unfold hide_row.
  rewrite run_bind, (run_getAttribute _ _ _ _ Ht). by rewrite Hid.
Qed.

(** The clicked row is numbered [x]: nothing happens unless [x] is even,
    and then the sibling numbered [x + 1] decides. *)
Lemma hide_row_numbered t d e s x :
  d !! t = Some e → attr "id" e = Some s → isTableId (Some s) = true →
  Number (at_last (split "-" s)) = x →
  hide_row t d =
  if is_even x then
    match element_by_id (row_id_of (succ x)) d with
    | Some j => (Normal (), toggled t j d)
    | None => (Throw (NoElementWithId (row_id_of (succ x))), d)
    end
  else (Normal (), d).
Proof.
  intros Ht Hs Hid Hx. unfold hide_row.
  rewrite run_bind, (run_getAttribute _ _ _ _ Ht), Hs, Hid.
  cbn [row_number_of]. rewrite run_bind, run_ret, Hx.
  destruct (is_even x); [|done].
  rewrite run_bind, run_getElementById.
  destruct (element_by_id _ d) as [j|] eqn:Hj; [|done].
  rewrite run_bind, run_deref_Some.
  destruct (element_by_id_Some _ _ _ Hj) as (ej & Hej & _).
  rewrite run_bind, (run_getAttribute _ _ _ _ Hej).
  unfold toggled, class_of. rewrite (attr_of_lookup _ _ _ _ Hej).
  assert (∀ f : element → element, is_Some (alter f j d !! t)) as Ht'.
  { intros f. rewrite lookup_alter_is_Some. eauto. }
  case_bool_decide.
  - rewrite run_bind, run_setAttribute by eauto.
    by rewrite run_setAttribute by done.
  - rewrite run_bind, run_setAttribute by eauto.
    by rewrite run_setAttribute by done.
Qed.

Lemma hide_row_even t d e i :
  d !! t = Some e → attr "id" e = Some (row_id i) →
  0 ≤ i < two53 → Z.even i = true →
  hide_row t d =
  match element_by_id (row_id (i + 1)) d with
  | Some j => (Normal (), toggled t j d)
  | None => (Throw (NoElementWithId (row_id (i + 1))), d)
  end.
Proof.
  intros Ht Hs Hi Hev.
  rewrite (hide_row_numbered t d e _ (Fin i) Ht Hs)
    by auto using isTableId_row_id, Number_row_id.
  rewrite is_even_Fin, Hev by lia. cbn [succ].
  by rewrite round_exact by (apply even_below_two53; [lia|done]).
Qed.

Lemma hide_row_odd t d e i :
  d !! t = Some e → attr "id" e = Some (row_id i) →
  0 ≤ i < two53 → Z.odd i = true →
  hide_row t d = (Normal (), d).
Proof.
  intros Ht Hs Hi Hodd.
  rewrite (hide_row_numbered t d e _ (Fin i) Ht Hs)
    by auto using isTableId_row_id, Number_row_id.
  rewrite is_even_Fin by lia. by rewrite <-Z.negb_odd, Hodd.
Qed.

Lemma button_other t d e :
  d !! t = Some e → attr "id" e ≠ Some main_menu →
  button t d = (Normal (), d).
Proof.
  intros Ht Hid. unfold button.
  rewrite run_bind, (run_getAttribute _ _ _ _ Ht).
  by rewrite bool_decide_eq_false_2.
Qed.

(** The toggle keeps every element in place and every identifier. *)
Lemma toggled_ids t j d : ids (toggled t j d) = ids d.
Proof.
  unfold toggled. case_bool_decide; by rewrite !ids_set_attr.
Qed.

Lemma toggled_id_of t j k d : id_of k (toggled t j d) = id_of k d.
Proof.
  unfold toggled, id_of.
  case_bool_decide; by rewrite !attr_of_set_ne.
Qed.

Lemma toggled_lookup t j k d e :
  d !! k = Some e →
  ∃ e', toggled t j d !! k = Some e' ∧ attr "id" e' = attr "id" e.
Proof.
  intros Hk. pose proof (toggled_id_of t j k d) as Hid.
  unfold id_of, attr_of in Hid. rewrite Hk in Hid. cbn in Hid.
  destruct (toggled t j d !! k) as [e'|] eqn:E; [by eauto|].
  assert (is_Some (toggled t j d !! k)) as [? ?]; [|congruence].
  unfold toggled. case_bool_decide; rewrite !lookup_alter_is_Some; eauto.
Qed.

(** A click on an element that is not the menu control is [hide_row]. *)
Lemma click_not_menu t d e :
  d !! t = Some e → attr "id" e ≠ Some main_menu →
  click t d = hide_row t d.
Proof.
  intros Ht Hid. unfold click. rewrite run_bind.
  destruct (isTableId (attr "id" e)) eqn:Htab.
  - apply isTableId_spec in Htab as (ds & Hs & Hds).
    rewrite (hide_row_numbered t d e _ _ Ht Hs) by
      (done || by apply isTableId_spec; eauto).
    destruct (is_even _); [|by apply (button_other _ _ e)].
    destruct (element_by_id _ d) as [j|]; [|done].
    destruct (toggled_lookup t j t d e Ht) as (e' & He' & Hid').
    apply (button_other _ _ e'); [done|]. by rewrite Hid'.
  - rewrite (hide_row_other _ _ _ Ht Htab).
    by apply (button_other _ _ e).
Qed.

End hide_row.

(* ===================================================================== *)
(** ** The loop of [button] *)
(* ===================================================================== *)

Section loop.

Lemma for_down_fuel_irrel fuel fuel' i body :
  (Z.to_nat i ≤ fuel)%nat → (Z.to_nat i ≤ fuel')%nat →
  for_down_fuel fuel i body = for_down_fuel fuel' i body.
Proof.
  revert fuel' i.
  induction fuel as [|fuel IH]; intros [|fuel'] i H H'; cbn; try done.
  - by rewrite bool_decide_eq_false_2 by lia.
  - by rewrite bool_decide_eq_false_2 by lia.
  - case_bool_decide; [|done]. by rewrite (IH fuel' (i - 2)) by lia.
Qed.

Lemma for_down_fuel_enough fuel i body :
  (Z.to_nat i ≤ fuel)%nat → for_down_fuel fuel i body = for_down i body.
Proof. intros H. by apply for_down_fuel_irrel. Qed.

(** The loop equation of the source. *)
Lemma for_down_unfold i body :
  for_down i body =
  if bool_decide (i > 0) then body i ;; for_down (i - 2) body else mret ().
Proof.
  unfold for_down at 1. destruct (Z.to_nat i) as [|n] eqn:En.
  - cbn. by rewrite bool_decide_eq_false_2 by lia.
  - cbn [for_down_fuel]. case_bool_decide; [|done].
    by rewrite for_down_fuel_enough by lia.
Qed.

Lemma down_indices_fuel_irrel fuel fuel' i :
  (Z.to_nat i ≤ fuel)%nat → (Z.to_nat i ≤ fuel')%nat →
  down_indices_fuel fuel i = down_indices_fuel fuel' i.
Proof.
  revert fuel' i.
  induction fuel as [|fuel IH]; intros [|fuel'] i H H'; cbn; try done.
  - by rewrite bool_decide_eq_false_2 by lia.
  - by rewrite bool_decide_eq_false_2 by lia.
  - case_bool_decide; [|done]. by rewrite (IH fuel' (i - 2)) by lia.
Qed.

Lemma down_indices_fuel_enough fuel i :
  (Z.to_nat i ≤ fuel)%nat → down_indices_fuel fuel i = down_indices i.
Proof. intros H. by apply down_indices_fuel_irrel. Qed.

Lemma down_indices_unfold i :
  down_indices i =
  if bool_decide (i > 0) then i :: down_indices (i - 2) else [].
Proof.
  unfold down_indices at 1. destruct (Z.to_nat i) as [|n] eqn:En.
  - cbn. by rewrite bool_decide_eq_false_2 by lia.
  - cbn [down_indices_fuel]. case_bool_decide; [|done].
    by rewrite down_indices_fuel_enough by lia.
Qed.

(** Induction along the loop. *)
Lemma down_ind (P : Z → Prop) :
  (∀ i, i ≤ 0 → P i) → (∀ i, i > 0 → P (i - 2) → P i) →
  ∀ i, P i.
Proof.
  intros H0 Hstep i.
  assert (∀ n i, (Z.to_nat i ≤ n)%nat → P i) as H; [|by eapply H].
  clear i. induction n as [|n IH]; intros i Hi.
  - apply H0. lia.
  - destruct (decide (i > 0)); [|apply H0; lia].
    apply Hstep; [done|]. apply IH. lia.
Qed.

(** The loop runs its body on [down_indices], in that order. *)
Lemma for_down_sequence i body :
  for_down i body = sequence body (down_indices i).
Proof.
  induction i as [i Hi|i Hi IH] using down_ind;
    rewrite for_down_unfold, down_indices_unfold.
  - by rewrite !bool_decide_eq_false_2 by lia.
  - rewrite !bool_decide_eq_true_2 by lia. cbn. by rewrite IH.
Qed.

Lemma elem_of_down_indices i k :
  k ∈ down_indices i ↔ 0 < k ≤ i ∧ Z.even (i - k) = true.
Proof.
  induction i as [i Hi|i Hi IH] using down_ind;
    rewrite down_indices_unfold.
  - rewrite bool_decide_eq_false_2 by lia. rewrite elem_of_nil. lia.
  - rewrite bool_decide_eq_true_2 by lia. rewrite elem_of_cons, IH.
    split.
    + intros [->|[? Hev]].
      * split; [lia|by rewrite Z.sub_diag].
      * split; [lia|]. replace (i - k) with (i - 2 - k + 2) by lia.
        by rewrite Z.even_add, Hev.
    + intros [? Hev]. destruct (decide (k = i)); [by left|right].
      replace (i - k) with (i - 2 - k + 2) in Hev by lia.
      rewrite Z.even_add in Hev.
      destruct (Z.even (i - 2 - k)) eqn:E; [|done].
      split; [|done]. destruct (decide (k = i - 1)); [|lia].
      subst k. by replace (i - 2 - (i - 1)) with (-1) in E by lia.
Qed.

Lemma elem_of_down_indices_odd i k :
  Z.odd i = true → k ∈ down_indices i ↔ 0 < k ≤ i ∧ Z.odd k = true.
Proof.
  intros Hodd. rewrite elem_of_down_indices.
  rewrite Z.even_sub, <-!Z.negb_odd, Hodd. by destruct (Z.odd k).
Qed.

End loop.

(* ===================================================================== *)
(** ** One click on the menu control: [button] *)
(* ===================================================================== *)

Section button.

Implicit Types (d : document) (e : element) (t m j : nat).

Lemma marked_refl cv sv d : marked cv sv d d.
Proof. repeat split; auto. Qed.

Lemma marked_trans cv sv d1 d2 d3 :
  marked cv sv d1 d2 → marked cv sv d2 d3 → marked cv sv d1 d3.
Proof.
  intros (Hl & Ht & Ha) (Hl' & Ht' & Ha'). split_and!.
  - congruence.
  - intros n. by rewrite Ht'.
  - intros n name.
    destruct (Ha' n name) as [->|?]; [apply Ha|tauto].
Qed.

Lemma marked_ids cv sv d d' : marked cv sv d d' → ids d' = ids d.
Proof.
  intros (Hl & _ & Ha). apply list_eq. intros k. unfold ids.
  rewrite !list_lookup_fmap.
  destruct (Ha k "id") as [H|[[? _]|[? _]]]; [|done..].
  unfold attr_of in H.
  destruct (d !! k) as [e|] eqn:E, (d' !! k) as [e'|] eqn:E'; cbn in *.
  - by rewrite H.
  - apply lookup_lt_Some in E. apply lookup_ge_None in E'. lia.
  - apply lookup_lt_Some in E'. apply lookup_ge_None in E. lia.
  - done.
Qed.

Lemma marked_class cv sv d d' n :
  marked cv sv d d' → class_of n d = Some cv → class_of n d' = Some cv.
Proof.
  intros (_ & _ & Ha) H. unfold class_of in *.
  destruct (Ha n "class") as [->|[[_ ?]|[? _]]]; done.
Qed.

Lemma marked_style cv sv d d' n :
  marked cv sv d d' → style_of n d = Some sv → style_of n d' = Some sv.
Proof.
  intros (_ & _ & Ha) H. unfold style_of in *.
  destruct (Ha n "style") as [->|[[? _]|[_ ?]]]; done.
Qed.

Lemma marked_set_class cv sv j d :
  is_Some (d !! j) → marked cv sv d (alter (with_attr "class" cv) j d).
Proof.
  intros Hj. split_and!.
  - apply length_alter.
  - intros n. apply text_of_set_attr.
  - intros n name.
    destruct (decide (name = "class")) as [->|];
      [|left; by apply attr_of_set_ne].
    destruct (decide (j = n)) as [->|];
      [|left; by apply attr_of_set_other].
    right; left. split; [done|]. by apply attr_of_set_eq.
Qed.

Lemma marked_set_style cv sv j d :
  is_Some (d !! j) → marked cv sv d (alter (with_attr "style" sv) j d).
Proof.
  intros Hj. split_and!.
  - apply length_alter.
  - intros n. apply text_of_set_attr.
  - intros n name.
    destruct (decide (name = "style")) as [->|];
      [|left; by apply attr_of_set_ne].
    destruct (decide (j = n)) as [->|];
      [|left; by apply attr_of_set_other].
    right; right. split; [done|]. by apply attr_of_set_eq.
Qed.

(** One iteration. *)
Lemma mark_pair_run cv sv i d :
  mark_pair cv sv i d =
  match element_by_id (row_id i) d with
  | None => (Throw (NoElementWithId (row_id i)), d)
  | Some j =>
      let d1 := alter (with_attr "class" cv) j d in
      match element_by_id (row_id (i - 1)) d with
      | None => (Throw (NoElementWithId (row_id (i - 1))), d1)
      | Some j' => (Normal (), alter (with_attr "style" sv) j' d1)
      end
  end.
Proof.
  unfold mark_pair. rewrite run_bind, run_getElementById.
  destruct (element_by_id (row_id i) d) as [j|] eqn:Hj; [|done].
  destruct (element_by_id_Some _ _ _ Hj) as (ej & Hej & _).
  rewrite run_bind, run_deref_Some, run_bind, run_setAttribute by eauto.
  rewrite run_bind, run_getElementById.
  rewrite (element_by_id_same_ids _ _ d) by by apply ids_set_attr.
  destruct (element_by_id (row_id (i - 1)) d) as [j'|] eqn:Hj'; [|done].
  destruct (element_by_id_Some _ _ _ Hj') as (ej' & Hej' & _).
  rewrite run_bind, run_deref_Some.
  rewrite run_setAttribute; [done|].
  rewrite lookup_alter_is_Some. eauto.
Qed.

Lemma mark_pair_marked cv sv i d c d' :
  mark_pair cv sv i d = (c, d') → marked cv sv d d'.
Proof.
  rewrite mark_pair_run.
  destruct (element_by_id (row_id i) d) as [j|] eqn:Hj.
  2:{ intros. simplify_eq. apply marked_refl. }
  destruct (element_by_id_Some _ _ _ Hj) as (ej & Hej & _).
  pose proof (marked_set_class cv sv j d (mk_is_Some _ _ Hej)) as H1.
  cbv zeta.
  destruct (element_by_id (row_id (i - 1)) d) as [j'|] eqn:Hj';
    intros; simplify_eq; [|done].
  destruct (element_by_id_Some _ _ _ Hj') as (ej' & Hej' & _).
  eapply marked_trans; [done|]. apply marked_set_style.
  rewrite lookup_alter_is_Some. eauto.
Qed.

(** The iterations of a loop that finds every row it looks up. *)
Lemma sequence_marks cv sv l d :
  (∀ k, k ∈ l → is_Some (element_by_id (row_id k) d)
                ∧ is_Some (element_by_id (row_id (k - 1)) d)) →
  ∃ d', sequence (mark_pair cv sv) l d = (Normal (), d')
        ∧ marked cv sv d d'
        ∧ ∀ k, k ∈ l →
            (∀ j, element_by_id (row_id k) d = Some j →
                  class_of j d' = Some cv)
            ∧ (∀ j, element_by_id (row_id (k - 1)) d = Some j →
                    style_of j d' = Some sv).
Proof.
  revert d. induction l as [|i l IH]; intros d Hrows.
  { exists d. split_and!; [done|apply marked_refl|].
    intros k Hk. by apply elem_of_nil in Hk. }
  destruct (Hrows i) as [[j Hj] [j' Hj']]; [by left|].
  destruct (element_by_id_Some _ _ _ Hj) as (ej & Hej & _).
  destruct (element_by_id_Some _ _ _ Hj') as (ej' & Hej' & _).
  pose proof (mark_pair_run cv sv i d) as Hrun.
  rewrite Hj, Hj' in Hrun. cbv zeta in Hrun.
  set (d1 := alter (with_attr "style" sv) j'
               (alter (with_attr "class" cv) j d)) in *.
  pose proof (mark_pair_marked _ _ _ _ _ _ Hrun) as Hm1.
  pose proof (marked_ids _ _ _ _ Hm1) as Hids.
  destruct (IH d1) as (d' & Hseq & Hm & Hall).
  { intros k Hk. rewrite !(element_by_id_same_ids _ d1 d) by done.
    apply Hrows. by right. }
  exists d'. split_and!.
  - cbn [sequence foldr]. rewrite run_bind, Hrun. exact Hseq.
  - by eapply marked_trans.
  - intros k [->|Hk]%elem_of_cons.
    + split; intros n Hn; simplify_eq.
      * apply (marked_class _ _ _ _ _ Hm). subst d1. unfold class_of.
        rewrite attr_of_set_ne by done. by apply attr_of_set_eq.
      * apply (marked_style _ _ _ _ _ Hm). subst d1. unfold style_of.
        apply attr_of_set_eq. rewrite lookup_alter_is_Some. eauto.
    + destruct (Hall k Hk) as [Hc Hs].
      split; intros n Hn; [apply Hc|apply Hs];
        by rewrite (element_by_id_same_ids _ d1 d).
Qed.

(** A loop that faults looked up a row that is not on the page. *)
Lemma sequence_throws cv sv l d x d' :
  sequence (mark_pair cv sv) l d = (Throw x, d') →
  marked cv sv d d'
  ∧ ∃ k, (k ∈ l ∨ k + 1 ∈ l) ∧ x = NoElementWithId (row_id k)
         ∧ element_by_id (row_id k) d = None.
Proof.
  revert d. induction l as [|i l IH]; intros d; [done|].
  cbn [sequence foldr]. rewrite run_bind.
  destruct (mark_pair cv sv i d) as [[[]|y] d1] eqn:Hrun.
  - pose proof (mark_pair_marked _ _ _ _ _ _ Hrun) as Hm1.
    intros (Hm & k & Hk & -> & Hnone)%IH. split.
    + by eapply marked_trans.
    + exists k. split_and!; [|done|].
      { destruct Hk; [left|right]; apply elem_of_cons; by right. }
      by rewrite <-(element_by_id_same_ids _ d1 d)
        by by eapply marked_ids.
  - intros ?; simplify_eq. split; [by eapply mark_pair_marked|].
    rewrite mark_pair_run in Hrun.
    destruct (element_by_id (row_id i) d) as [j|] eqn:Hj.
    + cbv zeta in Hrun.
      destruct (element_by_id (row_id (i - 1)) d) as [j'|] eqn:Hj';
        simplify_eq.
      exists (i - 1). split_and!; [|done..].
      right. replace (i - 1 + 1) with i by lia. by left.
    + simplify_eq. exists i. split_and!; [by left; left|done..].
Qed.

End button.

(* ===================================================================== *)
(** ** The menu control: expand and collapse *)
(* ===================================================================== *)

Section menu.

Implicit Types (d : document) (e : element) (t m j : nat).

Lemma attr_of_Some name n d v :
  attr_of name n d = Some v → ∃ e, d !! n = Some e ∧ attr name e = Some v.
Proof.
  unfold attr_of. destruct (d !! n) as [e|]; [|done]. cbn. eauto.
Qed.

Lemma text_of_Some n d v :
  text_of n d = Some v → ∃ e, d !! n = Some e ∧ textContent e = v.
Proof.
  unfold text_of. destruct (d !! n) as [e|]; [|done]. cbn.
  intros; simplify_eq. eauto.
Qed.

(** The whole of [button] on the menu control. *)
Lemma button_menu_run t d m label :
  id_of t d = Some main_menu → element_by_id main_menu d = Some m →
  text_of m d = Some label →
  button t d =
  let '(label', cv, sv) := menu_action label in
  let d1 := alter (with_text label') m d in
  match first_by_class result_table d with
  | None => (Throw (NoElementWithClass result_table), d1)
  | Some tb =>
      match d !! tb ≫= rows_length with
      | None => (Throw (NoRows tb), d1)
      | Some len =>
          sequence (mark_pair cv sv) (down_indices (Z.of_nat len - 1)) d1
      end
  end.
Proof.
  intros (e & Ht & He)%attr_of_Some Hm (em & Hem & Hl)%text_of_Some.
  unfold button.
  rewrite run_bind, (run_getAttribute _ _ _ _ Ht), He.
  rewrite bool_decide_eq_true_2 by done.
  rewrite run_bind, run_getElementById, Hm, run_bind, run_deref_Some.
  rewrite run_bind, (run_get_textContent _ _ _ Hem), Hl.
  unfold menu_action.
  assert (∀ v cv sv,
    (len ← first_rows_length result_table;
     for_down (len - 1) (mark_pair cv sv)) (alter (with_text v) m d) =
    match first_by_class result_table d with
    | None => (Throw (NoElementWithClass result_table),
               alter (with_text v) m d)
    | Some tb =>
        match d !! tb ≫= rows_length with
        | None => (Throw (NoRows tb), alter (with_text v) m d)
        | Some len =>
            sequence (mark_pair cv sv) (down_indices (Z.of_nat len - 1))
              (alter (with_text v) m d)
        end
    end) as Hrest.
  { intros v cv sv. rewrite run_bind. unfold first_rows_length.
    rewrite first_by_class_alter by done.
    destruct (first_by_class result_table d) as [tb|]; [|done].
    rewrite rows_length_alter by done.
    destruct (d !! tb ≫= rows_length) as [len|]; [|done].
    by rewrite for_down_sequence. }
  case_bool_decide.
  - rewrite run_bind, run_set_textContent by eauto. apply Hrest.
  - rewrite run_bind, run_set_textContent by eauto. apply Hrest.
Qed.

Lemma hide_row_menu t d :
  id_of t d = Some main_menu → hide_row t d = (Normal (), d).
Proof.
  intros (e & Ht & He)%attr_of_Some.
  apply (hide_row_other _ _ e Ht). by rewrite He.
Qed.

Lemma click_menu t d :
  id_of t d = Some main_menu → click t d = button t d.
Proof.
  intros H. unfold click. by rewrite run_bind, hide_row_menu.
Qed.

(** On a well-formed page the click completes; the label flips, every
    odd row gets the class and every even row the style of
    [menu_action]. *)
Lemma click_menu_page d t m label last :
  menu_page d t m label last →
  let '(label', cv, sv) := menu_action label in
  ∃ d', click t d = (Normal (), d')
        ∧ text_of m d' = Some label'
        ∧ ids d' = ids d
        ∧ ∀ k j,
            0 ≤ k ≤ last → element_by_id (row_id k) d = Some j →
            (Z.odd k = true → class_of j d' = Some cv)
            ∧ (Z.even k = true → style_of j d' = Some sv).
Proof.
  intros (Ht & Hm & Hl & (tb & len & Htb & Hlen & ->) & Hodd & Hrows).
  rewrite (click_menu _ _ Ht), (button_menu_run _ _ _ _ Ht Hm Hl).
  destruct (menu_action label) as [[label' cv] sv].
  cbv zeta. rewrite Htb, Hlen.
  set (last := Z.of_nat len - 1) in *.
  set (d1 := alter (with_text label') m d).
  assert (ids d1 = ids d) as Hids by apply ids_set_text.
  destruct (sequence_marks cv sv (down_indices last) d1)
    as (d' & Hrun & Hmark & Hall).
  { intros k [Hk _]%elem_of_down_indices.
    rewrite !(element_by_id_same_ids _ d1 d) by done.
    split; apply Hrows; lia. }
  exists d'. split_and!; [done| | |].
  - destruct Hmark as (_ & -> & _). apply text_of_set_text_eq.
    destruct (text_of_Some _ _ _ Hl) as (? & ? & _). eauto.
  - by rewrite (marked_ids _ _ _ _ Hmark).
  - intros k j Hk Hj.
    rewrite <-(element_by_id_same_ids _ d1 d) in Hj by done.
    split; intros Hpar.
    + apply (Hall k); [|done]. apply elem_of_down_indices_odd; [done|].
      split; [|done]. destruct (decide (k = 0)); [by subst k|lia].
    + apply (Hall (k + 1)).
      * apply elem_of_down_indices_odd; [done|].
        rewrite Z.odd_add, <-Z.negb_even, Hpar. split; [|done].
        destruct (decide (k = last)); [|lia].
        subst k. by rewrite <-Z.negb_even, Hpar in Hodd.
      * by replace (k + 1 - 1) with k by lia.
Qed.

(** A click on the menu control fails only on something that is not on
    the page: the element of class ["result-table"], its [rows]
    collection, or a row the loop looks up. *)
Lemma menu_click_throws d t x d' :
  id_of t d = Some main_menu → click t d = (Throw x, d') →
  (x = NoElementWithClass result_table
   ∧ first_by_class result_table d = None)
  ∨ (∃ tb, x = NoRows tb ∧ first_by_class result_table d = Some tb
           ∧ d !! tb ≫= rows_length = None)
  ∨ (∃ k, x = NoElementWithId (row_id k)
          ∧ element_by_id (row_id k) d = None).
Proof.
  intros Ht. destruct (attr_of_Some _ _ _ _ Ht) as (e & He & Hid).
  destruct (element_by_id_found _ _ _ _ He Hid) as [m Hm].
  destruct (element_by_id_Some _ _ _ Hm) as (em & Hem & _).
  assert (text_of m d = Some (textContent em)) as Hl
    by (unfold text_of; by rewrite Hem).
  rewrite (click_menu _ _ Ht), (button_menu_run _ _ _ _ Ht Hm Hl).
  destruct (menu_action (textContent em)) as [[label' cv] sv].
  cbv zeta.
  destruct (first_by_class result_table d) as [tb|] eqn:Htb;
    [|intros; simplify_eq; by left].
  destruct (d !! tb ≫= rows_length) as [len|] eqn:Hlen;
    [|intros; simplify_eq; right; left; by exists tb].
  intros (_ & k & _ & -> & Hk)%sequence_throws. right; right. exists k.
  split; [done|].
  by rewrite <-(element_by_id_same_ids _ (alter (with_text label') m d) d)
    by apply ids_set_text.
Qed.

End menu.

(* ===================================================================== *)
(** ** Clicks on rows *)
(* ===================================================================== *)

Section row_clicks.

Implicit Types (d : document) (t j : nat).

Lemma id_not_menu_of_row d t i :
  id_of t d = Some (row_id i) → 0 ≤ i < two53 →
  ∃ e, d !! t = Some e ∧ attr "id" e = Some (row_id i)
       ∧ attr "id" e ≠ Some main_menu.
Proof.
  intros (e & Ht & He)%attr_of_Some Hi. exists e. split_and!; [done..|].
  rewrite He. intros H. apply (row_id_not_menu i Hi). congruence.
Qed.

Lemma click_row_even d t i :
  id_of t d = Some (row_id i) → 0 ≤ i < two53 → Z.even i = true →
  click t d = pair_toggle t i d.
Proof.
  intros Ht Hi Hev.
  destruct (id_not_menu_of_row _ _ _ Ht Hi) as (e & He & Hid & Hnm).
  rewrite (click_not_menu _ _ _ He Hnm).
  by apply (hide_row_even _ _ e).
Qed.

Lemma click_row_odd d t i :
  id_of t d = Some (row_id i) → 0 ≤ i < two53 → Z.odd i = true →
  click t d = (Normal (), d).
Proof.
  intros Ht Hi Hodd.
  destruct (id_not_menu_of_row _ _ _ Ht Hi) as (e & He & Hid & Hnm).
  rewrite (click_not_menu _ _ _ He Hnm).
  by apply (hide_row_odd _ _ e i).
Qed.

(** The clicked row and its sibling are different elements. *)
Lemma sibling_is_other d t i j :
  id_of t d = Some (row_id i) → 0 ≤ i < two53 → Z.even i = true →
  element_by_id (row_id (i + 1)) d = Some j → t ≠ j ∧ is_Some (d !! j).
Proof.
  intros (e & Ht & He)%attr_of_Some Hi Hev (ej & Hj & Hej)%element_by_id_Some.
  split; [|eauto]. intros ->.
  assert (ej = e) as -> by congruence.
  pose proof (even_below_two53 i (proj2 Hi) Hev).
  assert (i = i + 1); [|lia]. apply row_id_inj; [lia..|congruence].
Qed.

Lemma toggled_shown t j d :
  is_Some (d !! t) → is_Some (d !! j) → class_of j d ≠ Some row_hide →
  toggled t j d
  = alter (with_attr "style" Null) t
      (alter (with_attr "class" row_hide) j d)
  ∧ class_of j (toggled t j d) = Some row_hide
  ∧ style_of t (toggled t j d) = Some Null.
Proof.
  intros Ht Hj Hc. unfold toggled. rewrite bool_decide_eq_true_2 by done.
  split_and!; [done| |].
  - unfold class_of. rewrite attr_of_set_ne by done.
    by apply attr_of_set_eq.
  - apply attr_of_set_eq. by rewrite lookup_alter_is_Some.
Qed.

Lemma toggled_hidden t j d :
  is_Some (d !! t) → is_Some (d !! j) → class_of j d = Some row_hide →
  toggled t j d
  = alter (with_attr "style" border_green) t
      (alter (with_attr "class" Null) j d)
  ∧ class_of j (toggled t j d) = Some Null
  ∧ style_of t (toggled t j d) = Some border_green.
Proof.
  intros Ht Hj Hc. unfold toggled.
  rewrite bool_decide_eq_false_2 by (by intros []).
  split_and!; [done| |].
  - unfold class_of. rewrite attr_of_set_ne by done.
    by apply attr_of_set_eq.
  - apply attr_of_set_eq. by rewrite lookup_alter_is_Some.
Qed.

Lemma toggled_changes t j d :
  is_Some (d !! t) → is_Some (d !! j) → toggled t j d ≠ d.
Proof.
  intros Ht Hj E.
  destruct (decide (class_of j d = Some row_hide)) as [Hc|Hc].
  - destruct (toggled_hidden t j d Ht Hj Hc) as (_ & Hc' & _).
    rewrite E, Hc in Hc'. discriminate Hc'.
  - destruct (toggled_shown t j d Ht Hj Hc) as (_ & Hc' & _).
    by rewrite E in Hc'.
Qed.

(** Altering an element into itself changes nothing. *)
Lemma alter_fixed (f : element → element) n d :
  (∀ e, d !! n = Some e → f e = e) → alter f n d = d.
Proof.
  intros Hf. rewrite <-(list_alter_id id d n) at 2 by done.
  by apply list_alter_ext.
Qed.

(** Setting the class of [j] and the style of [t] twice in a row amounts
    to the second setting; setting them back to what they were restores
    the page. *)
Lemma set_back t j d c s c' s' :
  t ≠ j → class_of j d = Some c → style_of t d = Some s →
  alter (with_attr "style" s) t (alter (with_attr "class" c) j
    (alter (with_attr "style" s') t (alter (with_attr "class" c') j d)))
  = d.
Proof.
  intros Hne Hc Hs.
  rewrite (list_alter_alter (with_attr "class" c) (with_attr "style" s')).
  rewrite decide_False by done.
  rewrite (list_alter_alter (with_attr "style" s) (with_attr "style" s')).
  rewrite decide_True by done.
  rewrite (list_alter_alter (with_attr "class" c) (with_attr "class" c')).
  rewrite decide_True by done.
  rewrite (alter_fixed _ j d).
  - apply alter_fixed. intros e He. apply with_attr_restore.
    by rewrite <-(attr_of_lookup _ _ _ _ He).
  - intros e He. apply with_attr_restore.
    by rewrite <-(attr_of_lookup _ _ _ _ He).
Qed.

End row_clicks.

(* ===================================================================== *)
(** ** The properties of the specification: row clicks *)
(* ===================================================================== *)

(** C3.  A click on row [i], [i] even (and below 2^53, so that the
    script's numbers hold it exactly), whose sibling row [i + 1] is
    element [j] of the page, completes normally.  If the class attribute
    of [j] is not ["row-hide"], the click sets it to ["row-hide"] and sets
    the style of the clicked row to the placeholder ["Null"]; otherwise it
    sets the class of [j] to the placeholder ["Null"] and the style of the
    clicked row to ["border-left: 5px solid green;"].  Nothing else on the
    page changes. *)
Theorem row_click_toggles_pair d t i j :
  id_of t d = Some (row_id i) → 0 ≤ i < two53 → Z.even i = true →
  element_by_id (row_id (i + 1)) d = Some j →
  outcome (click t) d = Normal ()
  ∧ (class_of j d ≠ Some row_hide →
     after (click t) d
     = alter (with_attr "style" Null) t
         (alter (with_attr "class" row_hide) j d)
     ∧ class_of j (after (click t) d) = Some row_hide
     ∧ style_of t (after (click t) d) = Some Null)
  ∧ (class_of j d = Some row_hide →
     after (click t) d
     = alter (with_attr "style" border_green) t
         (alter (with_attr "class" Null) j d)
     ∧ class_of j (after (click t) d) = Some Null
     ∧ style_of t (after (click t) d) = Some border_green).
Proof.
  intros Ht Hi Hev Hj.
  destruct (sibling_is_other _ _ _ _ Ht Hi Hev Hj) as [_ Hj'].
  destruct (attr_of_Some _ _ _ _ Ht) as (e & He & _).
  unfold outcome, after.
  rewrite (click_row_even _ _ _ Ht Hi Hev). unfold pair_toggle.
  rewrite Hj. cbn [fst snd]. split_and!; [done|..]; intros Hc.
  - apply toggled_shown; eauto.
  - apply toggled_hidden; eauto.
Qed.

Lemma row_click_toggles_pair_witness :
  class_of 3 (after (click 2%nat) page) = Some row_hide
  ∧ style_of 2 (after (click 2%nat) page) = Some Null.
Proof.
  destruct (row_click_toggles_pair page 2 0 3) as (_ & H & _).
  - reflexivity.
  - unfold two53. lia.
  - reflexivity.
  - reflexivity.
  - destruct H as (_ & Hc & Hs); [vm_compute; discriminate|].
    split; [exact Hc|exact Hs].
Defined.

(** The second of two clicks on the same row finds the same sibling. *)
Lemma click_again d t i j :
  id_of t d = Some (row_id i) → 0 ≤ i < two53 → Z.even i = true →
  element_by_id (row_id (i + 1)) d = Some j →
  click t d = (Normal (), toggled t j d)
  ∧ click t (toggled t j d) = (Normal (), toggled t j (toggled t j d)).
Proof.
  intros Ht Hi Hev Hj. split.
  - rewrite (click_row_even _ _ _ Ht Hi Hev). unfold pair_toggle.
    by rewrite Hj.
  - rewrite (click_row_even _ _ i); [|by rewrite toggled_id_of|done..].
    unfold pair_toggle.
    by rewrite (element_by_id_same_ids _ _ d), Hj by apply toggled_ids.
Qed.

(** C4, as the script behaves.  On a page with rows 0 to 3, none hidden
    and none bordered, the first click on row 0 gives row 1 the class
    ["row-hide"] and row 0 the style ["Null"]; the second click gives row 1
    the class ["Null"] and row 0 the style
    ["border-left: 5px solid green;"]. *)
Theorem scenario_two_clicks d t j :
  rows_0_3_plain d → id_of t d = Some (row_id 0) →
  element_by_id (row_id 1) d = Some j →
  let d1 := after (click t) d in
  let d2 := after (click t) d1 in
  outcome (click t) d = Normal ()
  ∧ outcome (click t) d1 = Normal ()
  ∧ class_of j d1 = Some row_hide
  ∧ style_of t d1 = Some Null
  ∧ class_of j d2 = Some Null
  ∧ style_of t d2 = Some border_green.
Proof.
  intros Hplain Ht Hj.
  assert (0 ≤ 0 < two53) as Hi by (unfold two53; lia).
  destruct (Hplain 1) as (j' & Hj' & Hc & _); [lia|].
  assert (j' = j) as -> by congruence.
  destruct (sibling_is_other d t 0 j Ht Hi eq_refl Hj) as [_ Hsome].
  destruct (attr_of_Some _ _ _ _ Ht) as (e & He & _).
  destruct (click_again d t 0 j Ht Hi eq_refl Hj) as [E1 E2].
  unfold outcome, after. rewrite E1. cbn [fst snd]. rewrite E2. cbn [fst snd].
  destruct (toggled_shown t j d) as (_ & Hc1 & Hs1); [eauto..|].
  destruct (toggled_hidden t j (toggled t j d)) as (_ & Hc2 & Hs2);
    [| |done|].
  - unfold toggled. case_bool_decide; rewrite !lookup_alter_is_Some; eauto.
  - unfold toggled. case_bool_decide; rewrite !lookup_alter_is_Some; eauto.
  - by split_and!.
Qed.

Lemma page_rows_0_3_plain : rows_0_3_plain page.
Proof.
  intros k Hk.
  assert (k = 0 ∨ k = 1 ∨ k = 2 ∨ k = 3)
    as [-> | [-> | [-> | ->]]] by lia;
    [exists 2%nat|exists 3%nat|exists 4%nat|exists 5%nat];
    (split_and!; [reflexivity|vm_compute; discriminate..]).
Defined.

Lemma scenario_two_clicks_witness :
  class_of 3 (after (click 2%nat) page) = Some row_hide
  ∧ style_of 2 (after (click 2%nat) page) = Some Null
  ∧ class_of 3 (after (click 2%nat) (after (click 2%nat) page)) = Some Null
  ∧ style_of 2 (after (click 2%nat) (after (click 2%nat) page))
    = Some border_green.
Proof.
  destruct (scenario_two_clicks page 2 3) as (_ & _ & H).
  - exact page_rows_0_3_plain.
  - reflexivity.
  - reflexivity.
  - exact H.
Defined.

(** C4, as the specification words it, fails on the page of the
    scenario: after the first click the style of row 0 is ["Null"], not
    the green border. *)
Lemma scenario_as_written_fails : ¬ scenario_as_written.
Proof.
  intros H.
  destruct (H page 2%nat 3%nat page_rows_0_3_plain eq_refl eq_refl)
    as (_ & Hs & _).
  vm_compute in Hs. discriminate Hs.
Qed.

(** C5, as the script behaves.  A click on an even row (numbered below
    2^53) with its sibling on the page flips whether the sibling's class
    is ["row-hide"] and
    leaves the pair in one of the two states of [in_cycle]; from such a
    state a second click restores the whole page. *)
Theorem two_clicks_round_trip d t i j :
  id_of t d = Some (row_id i) → 0 ≤ i < two53 → Z.even i = true →
  element_by_id (row_id (i + 1)) d = Some j →
  let d1 := after (click t) d in
  let d2 := after (click t) d1 in
  outcome (click t) d = Normal ()
  ∧ outcome (click t) d1 = Normal ()
  ∧ (class_of j d1 = Some row_hide ↔ class_of j d ≠ Some row_hide)
  ∧ in_cycle t j d1
  ∧ (in_cycle t j d → d2 = d).
Proof.
  intros Ht Hi Hev Hj.
  destruct (sibling_is_other _ _ _ _ Ht Hi Hev Hj) as [Hne Hsome].
  destruct (attr_of_Some _ _ _ _ Ht) as (e & He & _).
  destruct (click_again d t i j Ht Hi Hev Hj) as [E1 E2].
  unfold outcome, after. rewrite E1. cbn [fst snd]. rewrite E2. cbn [fst snd].
  assert (∀ d0, is_Some (d0 !! t) → is_Some (d0 !! j) →
                is_Some (toggled t j d0 !! t)
                ∧ is_Some (toggled t j d0 !! j)) as Hkeep.
  { intros d0 ? ?. unfold toggled.
    case_bool_decide; by rewrite !lookup_alter_is_Some. }
  destruct (Hkeep d) as [Ht1 Hj1]; [eauto..|].
  split_and!; [done..| | |].
  - destruct (decide (class_of j d = Some row_hide)) as [Hc|Hc].
    + destruct (toggled_hidden t j d) as (_ & Hc1 & _); [eauto..|].
      rewrite Hc1. split; [discriminate|done].
    + destruct (toggled_shown t j d) as (_ & Hc1 & _); [eauto..|].
      by rewrite Hc1.
  - destruct (decide (class_of j d = Some row_hide)) as [Hc|Hc].
    + destruct (toggled_hidden t j d) as (_ & ? & ?); [eauto..|].
      by right.
    + destruct (toggled_shown t j d) as (_ & ? & ?); [eauto..|].
      by left.
  - intros [[Hc Hs]|[Hc Hs]].
    + destruct (toggled_hidden t j d) as (E & Hc1 & _); [eauto..|].
      destruct (toggled_shown t j (toggled t j d)) as (E' & _);
        [done..|by rewrite Hc1|].
      rewrite E', E. by apply set_back.
    + assert (class_of j d ≠ Some row_hide) as Hc' by by rewrite Hc.
      destruct (toggled_shown t j d) as (E & Hc1 & _); [eauto..|].
      destruct (toggled_hidden t j (toggled t j d)) as (E' & _);
        [done..|].
      rewrite E', E. by apply set_back.
Qed.

Lemma two_clicks_round_trip_witness :
  after (click 2%nat) (after (click 2%nat) (after (click 2%nat) page))
  = after (click 2%nat) page.
Proof.
  destruct (two_clicks_round_trip page 2 0 3) as (_ & _ & _ & Hin & _).
  - reflexivity.
  - unfold two53. lia.
  - reflexivity.
  - reflexivity.
  - destruct (two_clicks_round_trip (after (click 2%nat) page) 2 0 3)
      as (_ & _ & _ & _ & Hback).
    + reflexivity.
    + unfold two53. lia.
    + reflexivity.
    + reflexivity.
    + exact (Hback Hin).
Defined.

(** C5, as the specification words it, fails on the page of the
    scenario: row 1 has no class attribute before the clicks and the
    class ["Null"] after them. *)
Lemma two_clicks_restore_fails : ¬ two_clicks_restore.
Proof.
  intros H.
  destruct (H page 2%nat 0 3%nat) as (Hc & _); [reflexivity| |reflexivity..|].
  - unfold two53. lia.
  - vm_compute in Hc. discriminate Hc.
Qed.

(** C7.  A click on an element whose identifier (if any) is neither
    accepted by the identifier test nor equal to ["main-menu"] completes
    normally and leaves the whole page as it was. *)
Theorem unrelated_click_changes_nothing d t :
  is_Some (d !! t) → isTableId (id_of t d) = false →
  id_of t d ≠ Some main_menu →
  click t d = (Normal (), d).
Proof.
  intros [e He] Htab Hmenu.
  rewrite (attr_of_lookup _ _ _ _ He : id_of t d = _) in Htab, Hmenu.
  rewrite (click_not_menu _ _ _ He Hmenu).
  by apply (hide_row_other _ _ e).
Qed.

Lemma unrelated_click_changes_nothing_witness :
  click 1%nat page = (Normal (), page).
Proof.
  apply (unrelated_click_changes_nothing page 1).
  - vm_compute. eexists. reflexivity.
  - reflexivity.
  - vm_compute. discriminate.
Defined.

(** C8.  A click on row [i], [i] odd (and below 2^53, so that the
    script's numbers hold it exactly), completes normally and leaves the
    whole page as it was. *)
Theorem odd_row_click_changes_nothing d t i :
  id_of t d = Some (row_id i) → 0 ≤ i < two53 → Z.odd i = true →
  click t d = (Normal (), d).
Proof. apply click_row_odd. Qed.

Lemma odd_row_click_changes_nothing_witness :
  click 3%nat page = (Normal (), page).
Proof.
  apply (odd_row_click_changes_nothing page 3 1).
  - reflexivity.
  - unfold two53. lia.
  - reflexivity.
Defined.

(** A click on anything but the menu control can only fail on the
    missing sibling of an even row, before anything is changed. *)
Lemma other_click_throws d t x d' :
  is_Some (d !! t) → id_of t d ≠ Some main_menu →
  click t d = (Throw x, d') →
  d' = d
  ∧ ∃ ds, id_of t d = Some (row_prefix +:+ ds)
          ∧ all_digits ds = true
          ∧ is_even (Number (Some ds)) = true
          ∧ x = NoElementWithId (row_id_of (succ (Number (Some ds))))
          ∧ element_by_id (row_id_of (succ (Number (Some ds)))) d = None.
Proof.
  intros [e He] Hmenu.
  rewrite (attr_of_lookup _ _ _ _ He : id_of t d = _) in Hmenu |- *.
  rewrite (click_not_menu _ _ _ He Hmenu).
  destruct (isTableId (attr "id" e)) eqn:Htab.
  2:{ by rewrite (hide_row_other _ _ _ He Htab). }
  pose proof Htab as (ds & Hs & Hds)%isTableId_spec.
  rewrite Hs in Htab.
  rewrite (hide_row_numbered t d e _ (Number (Some ds)) He Hs Htab)
    by by rewrite at_last_split.
  destruct (is_even (Number (Some ds))) eqn:Heven; [|done].
  destruct (element_by_id _ d) as [j|] eqn:Hj; [done|].
  intros [= <- <-]. split; [done|]. exists ds. by split_and!.
Qed.

(** Whatever is clicked, a click that fails dereferenced something that
    is not on the page. *)
Lemma click_throws d t x d' :
  is_Some (d !! t) → click t d = (Throw x, d') → not_on_page d x.
Proof.
  intros Ht Hthrow.
  destruct (decide (id_of t d = Some main_menu)) as [Hmenu|Hmenu].
  - destruct (menu_click_throws _ _ _ _ Hmenu Hthrow)
      as [[-> H]|[(tb & -> & _ & H)|(k & -> & H)]]; exact H.
  - destruct (other_click_throws _ _ _ _ Ht Hmenu Hthrow)
      as (_ & ds & _ & _ & _ & -> & H).
    exact H.
Qed.

(** C9.  A click on row [i], [i] even (and below 2^53, so that the
    script's numbers hold it exactly), when no element is identified as
    row [i + 1], throws on the [null] that the lookup returned, before
    anything is changed: it is no silent no-op.  A click on anything but
    the menu control has no other way to fail: if it throws, the clicked
    element carries an accepted identifier whose number is even, what was
    dereferenced is the missing sibling, and the page is unchanged.  And
    whatever is clicked, a click that throws dereferenced something that
    is not on the page. *)
Theorem missing_sibling_faults d t i :
  id_of t d = Some (row_id i) → 0 ≤ i < two53 → Z.even i = true →
  element_by_id (row_id (i + 1)) d = None →
  click t d = (Throw (NoElementWithId (row_id (i + 1))), d)
  ∧ (∀ t' x d',
       is_Some (d !! t') → id_of t' d ≠ Some main_menu →
       click t' d = (Throw x, d') →
       d' = d
       ∧ ∃ ds, id_of t' d = Some (row_prefix +:+ ds)
               ∧ all_digits ds = true
               ∧ is_even (Number (Some ds)) = true
               ∧ x = NoElementWithId (row_id_of (succ (Number (Some ds))))
               ∧ element_by_id (row_id_of (succ (Number (Some ds)))) d
                 = None)
  ∧ (∀ t' x d',
       is_Some (d !! t') → click t' d = (Throw x, d') → not_on_page d x).
Proof.
  intros Ht Hi Hev Hj. split_and!.
  - rewrite (click_row_even _ _ _ Ht Hi Hev). unfold pair_toggle.
    by rewrite Hj.
  - intros t' x d'. apply other_click_throws.
  - intros t' x d'. apply click_throws.
Qed.

Lemma missing_sibling_faults_witness :
  click 2%nat page_without_sibling
  = (Throw (NoElementWithId "result-table-row-1"), page_without_sibling).
Proof.
  destruct (missing_sibling_faults page_without_sibling 2 0) as [H _].
  - reflexivity.
  - unfold two53. lia.
  - reflexivity.
  - reflexivity.
  - exact H.
Defined.

(** C10.  The identifier ["result-table-row-"], with no digit, is
    accepted by the identifier test; its last segment converts to 0,
    which is even; and the click is the row-pair toggle of row 0 applied
    to the clicked element, exactly as for an element identified
    ["result-table-row-0"]: the sibling looked up is row 1, the style goes
    to the clicked element, and the page changes whenever row 1 is on
    it. *)
Theorem bare_prefix_is_row_zero d t :
  id_of t d = Some row_prefix →
  isTableId (id_of t d) = true
  ∧ Number (at_last (split "-" row_prefix)) = Fin 0
  ∧ is_even (Fin 0) = true
  ∧ click t d = pair_toggle t 0 d
  ∧ (∀ d0 t0, id_of t0 d0 = Some (row_id 0) →
              click t0 d0 = pair_toggle t0 0 d0)
  ∧ (∀ j, element_by_id (row_id 1) d = Some j → after (click t) d ≠ d).
Proof.
  intros Ht. destruct (attr_of_Some _ _ _ _ Ht) as (e & He & Hid).
  assert (click t d = pair_toggle t 0 d) as Hclick.
  { rewrite (click_not_menu _ _ _ He) by by rewrite Hid.
    by rewrite (hide_row_numbered t d e _ (Fin 0) He Hid). }
  split_and!; [by rewrite Ht|done..| |].
  - intros d0 t0 Ht0. apply click_row_even; [done| |done].
    unfold two53. lia.
  - intros j Hj. unfold after. rewrite Hclick. unfold pair_toggle.
    change (0 + 1) with 1. rewrite Hj. cbn [snd].
    destruct (element_by_id_Some _ _ _ Hj) as (ej & Hej & _).
    apply toggled_changes; eauto.
Qed.

Lemma bare_prefix_is_row_zero_witness :
  click 0%nat page_bare_prefix
  = (Normal (), toggled 0 2 page_bare_prefix)
  ∧ class_of 2 (after (click 0%nat) page_bare_prefix) = Some row_hide
  ∧ style_of 0 (after (click 0%nat) page_bare_prefix) = Some Null
  ∧ style_of 1 (after (click 0%nat) page_bare_prefix) = None.
Proof.
  destruct (bare_prefix_is_row_zero page_bare_prefix 0)
    as (_ & _ & _ & H & _).
  - reflexivity.
  - split; [exact H|]. split_and!; reflexivity.
Defined.

(* ===================================================================== *)
(** ** The properties of the specification: the menu control *)
(* ===================================================================== *)

Lemma page_menu_page : menu_page page 0 0 "Expand" 3.
Proof.
  split_and!; [reflexivity..| |reflexivity|].
  - exists 1%nat, 4%nat. split_and!; reflexivity.
  - intros k Hk.
    assert (k = 0 ∨ k = 1 ∨ k = 2 ∨ k = 3) as [-> | [-> | [-> | ->]]]
      by lia; vm_compute; eexists; reflexivity.
Defined.

Lemma page_collapse_menu_page : menu_page page_collapse 0 0 "Collapse" 3.
Proof.
  split_and!; [reflexivity..| |reflexivity|].
  - exists 1%nat, 4%nat. split_and!; reflexivity.
  - intros k Hk.
    assert (k = 0 ∨ k = 1 ∨ k = 2 ∨ k = 3) as [-> | [-> | [-> | ->]]]
      by lia; vm_compute; eexists; reflexivity.
Defined.

(** C1, as the script behaves.  On a page whose table holds complete
    pairs, all on the page, a click on the menu control reading "Expand"
    completes normally, sets the label to "Collapse", sets the class of
    every odd row to the placeholder ["Null"] (the detail rows are shown,
    not hidden) and the style of every even row to
    ["border-left: 5px solid green;"]. *)
Theorem expand_click_shows_details d t m last :
  menu_page d t m "Expand" last →
  outcome (click t) d = Normal ()
  ∧ text_of m (after (click t) d) = Some "Collapse"
  ∧ ∀ k j, 0 ≤ k ≤ last → element_by_id (row_id k) d = Some j →
      (Z.odd k = true → class_of j (after (click t) d) = Some Null)
      ∧ (Z.even k = true →
         style_of j (after (click t) d) = Some border_green).
Proof.
  intros H. pose proof (click_menu_page _ _ _ _ _ H) as Hrun.
  cbn in Hrun. destruct Hrun as (d' & E & Htext & _ & Hrows).
  unfold outcome, after. by rewrite E.
Qed.

Lemma expand_click_shows_details_witness :
  text_of 0 (after (click 0%nat) page) = Some "Collapse"
  ∧ class_of 3 (after (click 0%nat) page) = Some Null
  ∧ style_of 2 (after (click 0%nat) page) = Some border_green
  ∧ class_of 5 (after (click 0%nat) page) = Some Null
  ∧ style_of 4 (after (click 0%nat) page) = Some border_green.
Proof.
  destruct (expand_click_shows_details page 0 0 3 page_menu_page)
    as (_ & Htext & Hrows).
  split; [exact Htext|].
  destruct (Hrows 0 2%nat) as [_ H0]; [lia|reflexivity|].
  destruct (Hrows 1 3%nat) as [H1 _]; [lia|reflexivity|].
  destruct (Hrows 2 4%nat) as [_ H2]; [lia|reflexivity|].
  destruct (Hrows 3 5%nat) as [H3 _]; [lia|reflexivity|].
  split_and!; [exact (H1 eq_refl)|exact (H0 eq_refl)
              |exact (H3 eq_refl)|exact (H2 eq_refl)].
Defined.

(** C1, as the specification words it, fails on the page of the
    scenario: after the click the class of row 1 is ["Null"], not
    ["row-hide"]. *)
Lemma expand_click_hides_details_fails : ¬ expand_click_hides_details.
Proof.
  intros H.
  destruct (H page 0%nat 0%nat 3 page_menu_page) as (_ & _ & Hrows).
  destruct (Hrows 1 3%nat) as [Hc _]; [lia|reflexivity|].
  specialize (Hc eq_refl). vm_compute in Hc. discriminate Hc.
Qed.

(** C2, as the script behaves.  On a page whose table holds complete
    pairs, all on the page, a click on the menu control reading anything
    but "Expand" completes normally, sets the label to "Expand", sets the
    class of every odd row to ["row-hide"] (the detail rows are hidden)
    and the style of every even row to the placeholder ["Null"]. *)
Theorem collapse_click_hides_details d t m label last :
  menu_page d t m label last → label ≠ "Expand" →
  outcome (click t) d = Normal ()
  ∧ text_of m (after (click t) d) = Some "Expand"
  ∧ ∀ k j, 0 ≤ k ≤ last → element_by_id (row_id k) d = Some j →
      (Z.odd k = true → class_of j (after (click t) d) = Some row_hide)
      ∧ (Z.even k = true → style_of j (after (click t) d) = Some Null).
Proof.
  intros H Hl. pose proof (click_menu_page _ _ _ _ _ H) as Hrun.
  unfold menu_action in Hrun. rewrite bool_decide_eq_false_2 in Hrun by done.
  destruct Hrun as (d' & E & Htext & _ & Hrows).
  unfold outcome, after. by rewrite E.
Qed.

Lemma collapse_click_hides_details_witness :
  text_of 0 (after (click 0%nat) page_collapse) = Some "Expand"
  ∧ class_of 3 (after (click 0%nat) page_collapse) = Some row_hide
  ∧ style_of 2 (after (click 0%nat) page_collapse) = Some Null.
Proof.
  destruct (collapse_click_hides_details page_collapse 0 0 "Collapse" 3
              page_collapse_menu_page)
    as (_ & Htext & Hrows); [discriminate|].
  split; [exact Htext|].
  destruct (Hrows 0 2%nat) as [_ H0]; [lia|reflexivity|].
  destruct (Hrows 1 3%nat) as [H1 _]; [lia|reflexivity|].
  split; [exact (H1 eq_refl)|exact (H0 eq_refl)].
Defined.

(** C2, as the specification words it, fails on the page with every
    detail row shown and the menu reading "Collapse": after the click row
    1 has the class ["row-hide"]. *)
Lemma collapse_click_shows_details_fails : ¬ collapse_click_shows_details.
Proof.
  intros H.
  destruct (H page_collapse 0%nat 0%nat "Collapse" 3 page_collapse_menu_page)
    as (_ & _ & Hrows); [discriminate|].
  destruct (Hrows 1 3%nat) as [Hc _]; [lia|reflexivity|].
  apply (Hc eq_refl). reflexivity.
Qed.

(** C6, as the script behaves.  A click on the menu control sets the
    label and then runs the loop body on [down_indices last], where
    [last] is the row count of the first element of class
    ["result-table"] minus one, with no allowance for a header row.  The
    indices visited are those from [last] down in steps of two while
    positive: the ones of the parity of [last].  They are exactly the
    odd indices from 1 to [last] when [last] is odd, and all even when
    [last] is even. *)
Theorem menu_loop_visits d t m label tb len :
  id_of t d = Some main_menu → element_by_id main_menu d = Some m →
  text_of m d = Some label →
  first_by_class result_table d = Some tb →
  d !! tb ≫= rows_length = Some len →
  let last := Z.of_nat len - 1 in
  click t d
  = (set_textContent m (menu_action label).1.1;;
     sequence (mark_pair (menu_action label).1.2 (menu_action label).2)
       (down_indices last)) d
  ∧ (∀ i, i ∈ down_indices last
          ↔ 0 < i ≤ last ∧ Z.even (last - i) = true)
  ∧ (Z.odd last = true →
     ∀ i, i ∈ down_indices last ↔ 0 < i ≤ last ∧ Z.odd i = true)
  ∧ (Z.even last = true →
     ∀ i, i ∈ down_indices last → Z.even i = true).
Proof.
  intros Ht Hm Hl Htb Hlen last. split_and!.
  - rewrite (click_menu _ _ Ht), (button_menu_run _ _ _ _ Ht Hm Hl).
    destruct (menu_action label) as [[label' cv] sv]. cbn [fst snd].
    cbv zeta. rewrite Htb, Hlen.
    destruct (text_of_Some _ _ _ Hl) as (em & Hem & _).
    by rewrite run_bind, run_set_textContent by eauto.
  - intros i. apply elem_of_down_indices.
  - intros Hodd i. by apply elem_of_down_indices_odd.
  - intros Hev i [_ Hi]%elem_of_down_indices.
    rewrite Z.even_sub, Hev in Hi. by destruct (Z.even i).
Qed.

Lemma menu_loop_visits_witness :
  click 0%nat page
  = (set_textContent 0 "Collapse";;
     sequence (mark_pair Null border_green) [3; 1]) page
  ∧ (3 ∈ down_indices 3 ↔ 0 < 3 ≤ 3 ∧ Z.odd 3 = true).
Proof.
  destruct (menu_loop_visits page 0 0 "Expand" 1 4) as (Hrun & _ & H & _);
    [reflexivity..|].
  split; [exact Hrun|exact (H eq_refl 3)].
Defined.

(** C6, as the specification words it, fails for a table of four rows
    and a header row: the row count is 5, the loop starts at 4 and visits
    4 and 2, and the click faults on the row 4 that is not there. *)
Lemma loop_visits_odd_rows_fails :
  ¬ loop_visits_odd_rows
  ∧ down_indices (Z.of_nat 5 - 1) = [4; 2]
  ∧ outcome (click 0%nat) page_with_header
    = Throw (NoElementWithId "result-table-row-4").
Proof.
  split_and!; [|reflexivity..].
  intros H. destruct (H 5%nat 4) as [Hodd _].
  destruct Hodd as [_ Hodd]; [|discriminate Hodd].
  apply elem_of_down_indices. split; [lia|reflexivity].
Qed.

(* ===================================================================== *)
(** ** Further properties: identifiers and numbers *)
(* ===================================================================== *)

(** X1.  The identifier test accepts exactly the strings made of
    ["result-table-row-"] followed by zero or more ASCII digits; an
    element without identifier is not accepted. *)
Theorem isTableId_accepts_exactly (id : nullable) :
  (isTableId id = true
   ↔ ∃ ds, id = Some (row_prefix +:+ ds) ∧ all_digits ds = true)
  ∧ isTableId None = false.
Proof. split; [apply isTableId_spec|reflexivity]. Qed.

(** X2.  The identifier that [button] builds for row [i], for [i] below
    2^53, is accepted by the identifier test and [hide_row] reads the
    number [i] back from it; two such identifiers are equal only for
    equal numbers. *)
Theorem row_id_round_trip i :
  0 ≤ i < two53 →
  isTableId (Some (row_id i)) = true
  ∧ Number (at_last (split "-" (row_id i))) = Fin i
  ∧ ∀ j, 0 ≤ j < two53 → row_id i = row_id j → i = j.
Proof.
  intros Hi. split_and!.
  - by apply isTableId_row_id.
  - by apply Number_row_id.
  - intros j Hj. by apply row_id_inj.
Qed.

Lemma row_id_round_trip_witness :
  isTableId (Some (row_id 12)) = true
  ∧ Number (at_last (split "-" (row_id 12))) = Fin 12.
Proof.
  destruct (row_id_round_trip 12) as (H1 & H2 & _).
  - unfold two53. lia.
  - split; [exact H1|exact H2].
Defined.

Section leading_zeros.

Lemma all_digits_app s1 s2 :
  all_digits (s1 +:+ s2) = all_digits s1 && all_digits s2.
Proof.
  induction s1 as [|c s1 IH]; [done|].
  rewrite app_cons. cbn. by rewrite IH, andb_assoc.
Qed.

Lemma all_digits_zeros k : all_digits (zeros k) = true.
Proof. induction k; cbn; auto. Qed.

Lemma uint_of_zeros k s u :
  NilEmpty.uint_of_string s = Some u →
  ∃ u', NilEmpty.uint_of_string (zeros k +:+ s) = Some u'
        ∧ N.of_uint u' = N.of_uint u.
Proof.
  intros Hs. induction k as [|k (u' & Hu' & E)]; [by exists u|].
  exists (Decimal.D0 u'). cbn [zeros]. rewrite app_cons.
  cbn [NilEmpty.uint_of_string]. by rewrite Hu'.
Qed.

Lemma Number_zeros k i :
  0 ≤ i < two53 →
  Number (at_last (split "-" (row_prefix +:+ zeros k +:+ decimal (Z.to_N i))))
  = Fin i.
Proof.
  intros Hi.
  assert (all_digits (zeros k +:+ decimal (Z.to_N i)) = true) as Hd.
  { by rewrite all_digits_app, all_digits_zeros, all_digits_decimal. }
  rewrite at_last_split by done. cbn [Number].
  destruct (uint_of_zeros k _ _ (uint_of_decimal (Z.to_N i)))
    as (u' & -> & ->).
  rewrite DecimalN.Unsigned.of_to, Z2N.id by lia.
  apply round_exact. lia.
Qed.

End leading_zeros.

(** X3.  Leading zeros in the identifier of the clicked row do not
    matter: the row numbered [i] (below 2^53) written with [k] zeros in
    front is toggled as row [i] when [i] is even, its sibling being looked
    up under the identifier without the zeros, and is left alone when [i]
    is odd. *)
Theorem leading_zeros_ignored d t k i :
  id_of t d = Some (row_prefix +:+ zeros k +:+ decimal (Z.to_N i)) →
  0 ≤ i < two53 →
  click t d = if Z.even i then pair_toggle t i d else (Normal (), d).
Proof.
  intros (e & He & Hid)%attr_of_Some Hi.
  assert (isTableId (Some (row_prefix +:+ zeros k +:+ decimal (Z.to_N i)))
          = true) as Htab.
  { apply isTableId_spec. eexists. split; [done|].
    by rewrite all_digits_app, all_digits_zeros, all_digits_decimal. }
  rewrite (click_not_menu _ _ e He) by (rewrite Hid; discriminate).
  rewrite (hide_row_numbered t d e _ (Fin i) He Hid Htab)
    by by apply Number_zeros.
  rewrite is_even_Fin by lia.
  destruct (Z.even i) eqn:Hev; [|done].
  unfold pair_toggle. cbn [succ].
  by rewrite round_exact by (apply even_below_two53; [lia|done]).
Qed.

Lemma leading_zeros_ignored_witness :
  click 0%nat page_leading_zeros
  = (Normal (), toggled 0 1 page_leading_zeros).
Proof.
  apply (leading_zeros_ignored page_leading_zeros 0 2 0).
  - reflexivity.
  - unfold two53. lia.
Defined.

Section large_numbers.

Lemma log2_two53 z : two53 ≤ z → 53 ≤ Z.log2 z.
Proof.
  intros Hz. change 53 with (Z.log2 two53). by apply Z.log2_le_mono.
Qed.

(** From 2^53 on every finite number is even. *)
Lemma round_large_even z m :
  two53 ≤ z → round z = Fin m → Z.even m = true.
Proof.
  intros Hz. unfold round. rewrite (proj2 (Z.ltb_ge _ _) Hz). cbv zeta.
  pose proof (log2_two53 z Hz) as Hlog.
  destruct (1024 <=? _); [done|]. intros [= <-].
  rewrite Z.shiftl_mul_pow2 by lia.
  replace (Z.log2 z - 52) with (Z.succ (Z.log2 z - 53)) by lia.
  rewrite Z.pow_succ_r by lia.
  by rewrite !Z.even_mul, orb_true_r.
Qed.

End large_numbers.

(** X4.  From 2^53 on, the number in the identifier is rounded to a
    binary64 value when the script reads it, and the value read is never
    odd: a click on such a row, whatever the parity of the number written
    in its identifier, either does nothing because the number overflowed
    to [Infinity], or goes on to its sibling lookup like a click on an
    even row. *)
Theorem large_row_number_read_as_even d t (n : N) :
  id_of t d = Some (row_prefix +:+ decimal n) → two53 ≤ Z.of_N n →
  (Number (Some (decimal n)) = Infinity ∧ click t d = (Normal (), d))
  ∨ ∃ m, Number (Some (decimal n)) = Fin m
         ∧ Z.even m = true
         ∧ click t d
           = match element_by_id (row_id_of (succ (Fin m))) d with
             | Some j => (Normal (), toggled t j d)
             | None =>
                 (Throw (NoElementWithId (row_id_of (succ (Fin m)))), d)
             end.
Proof.
  intros (e & He & Hid)%attr_of_Some Hn.
  assert (isTableId (Some (row_prefix +:+ decimal n)) = true) as Htab.
  { apply isTableId_spec. eexists. split; [done|]. apply all_digits_decimal. }
  assert (Number (Some (decimal n)) = round (Z.of_N n)) as HN.
  { cbn [Number]. by rewrite uint_of_decimal, DecimalN.Unsigned.of_to. }
  rewrite (click_not_menu _ _ e He) by (rewrite Hid; discriminate).
  rewrite (hide_row_numbered t d e _ (Number (Some (decimal n))) He Hid Htab)
    by by rewrite at_last_split by apply all_digits_decimal.
  rewrite HN. destruct (round (Z.of_N n)) as [m| |] eqn:Hr.
  - right. exists m. pose proof (round_large_even _ _ Hn Hr) as Hev.
    split_and!; [done..|].
    rewrite is_even_Fin, Hev; [done|].
    unfold round in Hr. rewrite (proj2 (Z.ltb_ge _ _) Hn) in Hr.
    cbv zeta in Hr. destruct (1024 <=? _); [done|]. injection Hr as <-.
    apply Z.shiftl_nonneg.
    destruct (_ || _); [|apply Z.shiftr_nonneg; lia].
    pose proof (Z.shiftr_nonneg (Z.of_N n) (Z.log2 (Z.of_N n) - 52)). lia.
  - by left.
  - exfalso. unfold round in Hr. rewrite (proj2 (Z.ltb_ge _ _) Hn) in Hr.
    cbv zeta in Hr. by destruct (1024 <=? _).
Qed.

Lemma large_row_number_read_as_even_witness :
  Number (Some "9007199254740993") = Fin 9007199254740992
  ∧ click 0%nat page_large_numbers
    = (Normal (), toggled 0 1 page_large_numbers).
Proof.
  destruct (large_row_number_read_as_even page_large_numbers 0
              9007199254740993%N) as [[H _]|(m & Hm & _ & Hclick)].
  - reflexivity.
  - unfold two53. lia.
  - discriminate H.
  - injection Hm as <-. split; [reflexivity|exact Hclick].
Defined.

(* ===================================================================== *)
(** ** Further properties: what a click leaves alone *)
(* ===================================================================== *)

Section frame.

Implicit Types (d : document) (e : element) (t j n : nat).

Lemma restyles_refl e : restyles e e.
Proof. split; auto. Qed.

Lemma restyles_trans e1 e2 e3 :
  restyles e1 e2 → restyles e2 e3 → restyles e1 e3.
Proof.
  intros [Hr Ha] [Hr' Ha']. split; [congruence|].
  intros name. destruct (Ha' name) as [->|?]; [apply Ha|tauto].
Qed.

Lemma restyles_class e v :
  v = row_hide ∨ v = Null → restyles e (with_attr "class" v e).
Proof.
  intros Hv. split; [done|]. intros name.
  destruct (decide (name = "class")) as [->|Hne].
  - right; left. split; [done|]. rewrite attr_with_attr_eq.
    destruct Hv as [->| ->]; auto.
  - left. by apply attr_with_attr_ne.
Qed.

Lemma restyles_style e v :
  v = Null ∨ v = border_green → restyles e (with_attr "style" v e).
Proof.
  intros Hv. split; [done|]. intros name.
  destruct (decide (name = "style")) as [->|Hne].
  - right; right. split; [done|]. rewrite attr_with_attr_eq.
    destruct Hv as [->| ->]; auto.
  - left. by apply attr_with_attr_ne.
Qed.

Lemma restyled_refl d : restyled d d.
Proof. split; [done|]. intros n e He. exists e. auto using restyles_refl. Qed.

Lemma restyled_trans d1 d2 d3 :
  restyled d1 d2 → restyled d2 d3 → restyled d1 d3.
Proof.
  intros [Hl H12] [Hl' H23]. split; [congruence|].
  intros n e1 He1. destruct (H12 n e1 He1) as (e2 & He2 & Hr & Ht).
  destruct (H23 n e2 He2) as (e3 & He3 & Hr' & Ht').
  exists e3. split_and!; [done|by eapply restyles_trans|congruence].
Qed.

Lemma restyled_alter (f : element → element) n d :
  (∀ e, restyles e (f e) ∧ textContent (f e) = textContent e) →
  restyled d (alter f n d).
Proof.
  intros Hf. split; [apply length_alter|].
  intros k e He. rewrite list_lookup_alter. case_decide as Hk.
  - subst k. rewrite He. exists (f e). cbn. by destruct (Hf e).
  - exists e. auto using restyles_refl.
Qed.

Lemma restyled_set_class v n d :
  v = row_hide ∨ v = Null → restyled d (alter (with_attr "class" v) n d).
Proof.
  intros Hv. apply restyled_alter. intros e.
  by split; [apply restyles_class|].
Qed.

Lemma restyled_set_style v n d :
  v = Null ∨ v = border_green →
  restyled d (alter (with_attr "style" v) n d).
Proof.
  intros Hv. apply restyled_alter. intros e.
  by split; [apply restyles_style|].
Qed.

Lemma restyled_toggled t j d : restyled d (toggled t j d).
Proof.
  unfold toggled. case_bool_decide.
  - eapply restyled_trans; [apply restyled_set_class|apply restyled_set_style];
      auto.
  - eapply restyled_trans; [apply restyled_set_class|apply restyled_set_style];
      auto.
Qed.

(** [hide_row] returns the page it was given or the page toggled. *)
Lemma hide_row_after t d :
  after (hide_row t) d = d ∨ ∃ j, after (hide_row t) d = toggled t j d.
Proof.
  unfold after. destruct (d !! t) as [e|] eqn:He.
  2:{ left. unfold hide_row. rewrite run_bind. unfold getAttribute.
      by rewrite He. }
  destruct (isTableId (attr "id" e)) eqn:Htab.
  2:{ left. by rewrite (hide_row_other _ _ _ He Htab). }
  pose proof Htab as (ds & Hs & Hds)%isTableId_spec. rewrite Hs in Htab.
  rewrite (hide_row_numbered t d e _ _ He Hs Htab eq_refl).
  destruct (is_even _); [|by left].
  destruct (element_by_id _ d) as [j|]; [right; by exists j|by left].
Qed.

Lemma mark_pair_restyled cv sv i d c d' :
  cv = row_hide ∨ cv = Null → sv = Null ∨ sv = border_green →
  mark_pair cv sv i d = (c, d') → restyled d d'.
Proof.
  intros Hcv Hsv. rewrite mark_pair_run.
  destruct (element_by_id (row_id i) d) as [j|].
  2:{ intros; simplify_eq. apply restyled_refl. }
  cbv zeta. destruct (element_by_id (row_id (i - 1)) d) as [j'|];
    intros; simplify_eq.
  - eapply restyled_trans;
      [by apply restyled_set_class|by apply restyled_set_style].
  - by apply restyled_set_class.
Qed.

Lemma sequence_restyled cv sv l d c d' :
  cv = row_hide ∨ cv = Null → sv = Null ∨ sv = border_green →
  sequence (mark_pair cv sv) l d = (c, d') → restyled d d'.
Proof.
  intros Hcv Hsv. revert d. induction l as [|i l IH]; intros d.
  { cbn [sequence foldr]. rewrite run_ret. intros; simplify_eq.
    apply restyled_refl. }
  cbn [sequence foldr]. rewrite run_bind.
  destruct (mark_pair cv sv i d) as [[[]|y] d1] eqn:Hrun.
  - intros Hrest. eapply restyled_trans; [|by eapply IH].
    by eapply mark_pair_restyled.
  - intros; simplify_eq. by eapply mark_pair_restyled.
Qed.

Lemma menu_action_values label :
  let '(label', cv, sv) := menu_action label in
  (label' = "Expand" ∨ label' = "Collapse")
  ∧ (cv = row_hide ∨ cv = Null) ∧ (sv = Null ∨ sv = border_green).
Proof. unfold menu_action. case_bool_decide; auto 10. Qed.

Lemma click_frame_of_restyled d d' : restyled d d' → click_frame d d'.
Proof.
  intros [Hl H]. split; [done|]. intros n e He.
  destruct (H n e He) as (e' & ? & ? & ?). exists e'. auto.
Qed.

Lemma click_frame_menu t d :
  id_of t d = Some main_menu → click_frame d (after (click t) d).
Proof.
  intros Ht. destruct (attr_of_Some _ _ _ _ Ht) as (e & He & Hid).
  destruct (element_by_id_found _ _ _ _ He Hid) as [m Hm].
  destruct (element_by_id_Some _ _ _ Hm) as (em & Hem & _).
  assert (text_of m d = Some (textContent em)) as Hl
    by (unfold text_of; by rewrite Hem).
  unfold after.
  rewrite (click_menu _ _ Ht), (button_menu_run _ _ _ _ Ht Hm Hl).
  pose proof (menu_action_values (textContent em)) as Hv.
  destruct (menu_action (textContent em)) as [[label' cv] sv].
  destruct Hv as (Hlabel & Hcv & Hsv). cbv zeta.
  set (d1 := alter (with_text label') m d).
  assert (∀ d', restyled d1 d' → click_frame d d') as Hstep.
  { intros d' [Hl' H]. split.
    { rewrite Hl'. apply length_alter. }
    intros n e0 He0.
    destruct (H n (if decide (m = n) then with_text label' e0 else e0))
      as (e' & He' & Hr & Htext).
    { subst d1. rewrite list_lookup_alter. case_decide; [|done].
      subst n. by rewrite He0. }
    exists e'. split; [done|]. case_decide as Hmn.
    - subst n. split; [done|]. right. split; [done|].
      rewrite Htext. cbn. tauto.
    - split; [done|]. by left. }
  destruct (first_by_class result_table d) as [tb|];
    [|apply Hstep, restyled_refl].
  destruct (d !! tb ≫= rows_length) as [len|];
    [|apply Hstep, restyled_refl].
  destruct (sequence _ _ d1) as [c d'] eqn:Hseq. cbn [snd].
  apply Hstep. by eapply sequence_restyled.
Qed.

End frame.

(** X5.  Whatever is clicked, and whether the click completes or throws,
    the page afterwards has the same elements in the same places, each
    with every attribute it had: only [class] attributes may differ, then
    being ["row-hide"] or ["Null"], and [style] attributes, then being
    ["Null"] or the green border.  No identifier changes, no attribute is
    removed, no [rows] collection changes, and the only text that may
    change is that of the menu control, to "Expand" or "Collapse". *)
Theorem click_changes_only_markers d t :
  click_frame d (after (click t) d)
  ∧ ids (after (click t) d) = ids d.
Proof.
  assert (click_frame d (after (click t) d)) as Hframe.
  { destruct (decide (id_of t d = Some main_menu)) as [Hm|Hm].
    { by apply click_frame_menu. }
    destruct (d !! t) as [e|] eqn:He.
    - rewrite (attr_of_lookup _ _ _ _ He : id_of t d = _) in Hm.
      unfold after. rewrite (click_not_menu _ _ _ He Hm).
      apply click_frame_of_restyled.
      destruct (hide_row_after t d) as [E|[j E]]; unfold after in E;
        rewrite E; [apply restyled_refl|apply restyled_toggled].
    - unfold after, click, hide_row. rewrite !run_bind.
      unfold getAttribute. rewrite He. cbn [snd].
      apply click_frame_of_restyled, restyled_refl. }
  split; [done|]. destruct Hframe as [Hl H]. apply list_eq. intros n.
  unfold ids. rewrite !list_lookup_fmap.
  destruct (d !! n) as [e|] eqn:He.
  - destruct (H n e He) as (e' & -> & [_ Ha] & _). cbn. f_equal.
    destruct (Ha "id") as [E|[[? _]|[? _]]]; done.
  - apply lookup_ge_None in He. rewrite <-Hl in He.
    apply lookup_ge_None in He. by rewrite He.
Qed.

(** X6.  The two calls of the listener never both act on one click: on
    the menu control [hide_row] does nothing and the click is [button];
    on any other element [button] does nothing and the click is
    [hide_row]. *)
Theorem click_dispatch d t :
  is_Some (d !! t) →
  (id_of t d = Some main_menu →
   hide_row t d = (Normal (), d) ∧ click t d = button t d)
  ∧ (id_of t d ≠ Some main_menu →
     button t d = (Normal (), d) ∧ click t d = hide_row t d).
Proof.
  intros [e He]. split; intros Hid.
  - split; [by apply hide_row_menu|by apply click_menu].
  - rewrite (attr_of_lookup _ _ _ _ He : id_of t d = _) in Hid.
    split; [by apply (button_other _ _ e)|by apply (click_not_menu _ _ e)].
Qed.

Lemma click_dispatch_witness :
  click 0%nat page = button 0%nat page
  ∧ click 2%nat page = hide_row 2%nat page.
Proof.
  destruct (click_dispatch page 0) as [H0 _].
  { vm_compute. eexists. reflexivity. }
  destruct (click_dispatch page 2) as [_ H2].
  { vm_compute. eexists. reflexivity. }
  split.
  - apply H0. reflexivity.
  - apply H2. vm_compute. discriminate.
Defined.

(* ===================================================================== *)
(** ** Further properties: the menu control *)
(* ===================================================================== *)

Section menu_further.

Implicit Types (d : document) (t m j : nat).

(** The closed form of the indices of the loop. *)
Lemma down_indices_closed i :
  down_indices i
  = (λ k : nat, i - 2 * Z.of_nat k) <$> seq 0 (Z.to_nat ((i + 1) / 2)).
Proof.
  induction i as [i Hi|i Hi IH] using down_ind;
    rewrite down_indices_unfold.
  - rewrite bool_decide_eq_false_2 by lia.
    assert ((i + 1) / 2 < 1) by (apply Z.div_lt_upper_bound; lia).
    by replace (Z.to_nat ((i + 1) / 2)) with 0%nat by lia.
  - rewrite bool_decide_eq_true_2 by lia.
    replace (i + 1) with (i - 2 + 1 + 1 * 2) by lia.
    rewrite Z.div_add by lia.
    assert (0 ≤ (i - 2 + 1) / 2) by (apply Z.div_pos; lia).
    rewrite Z2Nat.inj_add by lia.
    change (Z.to_nat 1) with 1%nat. rewrite Nat.add_1_r.
    cbn [seq fmap list_fmap]. f_equal; [lia|].
    rewrite IH, <-fmap_S_seq, <-list_fmap_compose.
    apply list_fmap_ext. intros _ k _. cbn. lia.
Qed.

(** The click on the menu control of a page on which every row the loop
    looks up is present. *)
Lemma click_menu_marks d t m label tb len :
  id_of t d = Some main_menu → element_by_id main_menu d = Some m →
  text_of m d = Some label →
  first_by_class result_table d = Some tb →
  d !! tb ≫= rows_length = Some len →
  every_row_present d (Z.of_nat len - 1) →
  let '(label', cv, sv) := menu_action label in
  ∃ d', click t d = (Normal (), d')
        ∧ text_of m d' = Some label'
        ∧ marked cv sv (alter (with_text label') m d) d'
        ∧ ∀ i, i ∈ down_indices (Z.of_nat len - 1) →
            (∀ j, element_by_id (row_id i) d = Some j →
                  class_of j d' = Some cv)
            ∧ (∀ j, element_by_id (row_id (i - 1)) d = Some j →
                    style_of j d' = Some sv).
Proof.
  intros Ht Hm Hl Htb Hlen Hrows.
  rewrite (click_menu _ _ Ht), (button_menu_run _ _ _ _ Ht Hm Hl).
  destruct (menu_action label) as [[label' cv] sv].
  cbv zeta. rewrite Htb, Hlen.
  set (last := Z.of_nat len - 1) in *.
  set (d1 := alter (with_text label') m d).
  assert (ids d1 = ids d) as Hids by apply ids_set_text.
  destruct (sequence_marks cv sv (down_indices last) d1)
    as (d' & Hrun & Hmark & Hall).
  { intros k [Hk _]%elem_of_down_indices.
    rewrite !(element_by_id_same_ids _ d1 d) by done.
    split; apply Hrows; lia. }
  exists d'. split_and!; [done| |done|].
  - destruct Hmark as (_ & Htext & _). rewrite Htext.
    apply text_of_set_text_eq.
    destruct (text_of_Some _ _ _ Hl) as (? & ? & _). eauto.
  - intros i Hi. destruct (Hall i Hi) as [Hc Hs].
    split; intros j Hj; [apply Hc|apply Hs];
      by rewrite (element_by_id_same_ids _ d1 d).
Qed.

End menu_further.

(** X7.  A click on the menu control that throws has already flipped the
    label: the text of the menu control is the new label although the
    rows were not all updated, so the next click runs the other
    branch. *)
Theorem failed_menu_click_flips_label d t m label x d' :
  id_of t d = Some main_menu → element_by_id main_menu d = Some m →
  text_of m d = Some label →
  click t d = (Throw x, d') →
  text_of m d' = Some (menu_action label).1.1.
Proof.
  intros Ht Hm Hl.
  rewrite (click_menu _ _ Ht), (button_menu_run _ _ _ _ Ht Hm Hl).
  destruct (menu_action label) as [[label' cv] sv]. cbn [fst snd].
  cbv zeta.
  assert (text_of m (alter (with_text label') m d) = Some label') as Hnew.
  { apply text_of_set_text_eq.
    destruct (text_of_Some _ _ _ Hl) as (? & ? & _). eauto. }
  destruct (first_by_class result_table d) as [tb|];
    [|intros; by simplify_eq].
  destruct (d !! tb ≫= rows_length) as [len|];
    [|intros; by simplify_eq].
  intros [(_ & Htext & _) _]%sequence_throws. by rewrite Htext.
Qed.

Lemma failed_menu_click_flips_label_witness :
  text_of 0 (after (click 0%nat) page_with_header) = Some "Collapse".
Proof.
  apply (failed_menu_click_flips_label page_with_header 0 0 "Expand"
           (NoElementWithId "result-table-row-4")
           (after (click 0%nat) page_with_header));
    reflexivity.
Defined.

(** X8.  When the table has no row or a single row, the loop of the menu
    control does not run: the click completes and only flips the label,
    whether or not any row is on the page. *)
Theorem short_table_only_flips_label d t m label tb len :
  id_of t d = Some main_menu → element_by_id main_menu d = Some m →
  text_of m d = Some label →
  first_by_class result_table d = Some tb →
  d !! tb ≫= rows_length = Some len → (len ≤ 1)%nat →
  click t d = (Normal (), alter (with_text (menu_action label).1.1) m d).
Proof.
  intros Ht Hm Hl Htb Hlen Hshort.
  rewrite (click_menu _ _ Ht), (button_menu_run _ _ _ _ Ht Hm Hl).
  destruct (menu_action label) as [[label' cv] sv]. cbn [fst snd].
  cbv zeta. rewrite Htb, Hlen, down_indices_unfold.
  by rewrite bool_decide_eq_false_2 by lia.
Qed.

Lemma short_table_only_flips_label_witness :
  click 0%nat page_without_sibling
  = (Normal (), alter (with_text "Collapse") 0%nat page_without_sibling).
Proof.
  apply (short_table_only_flips_label page_without_sibling 0 0 "Expand" 1 1);
    [reflexivity..|lia].
Defined.

(** X9.  For a table of [len] rows the loop of the menu control runs its
    body [len / 2] times, on the indices [len - 1], [len - 3], ... in
    that order: once per pair counted from the last row. *)
Theorem loop_runs_once_per_pair (len : nat) (body : Z → M unit) :
  for_down (Z.of_nat len - 1) body
  = sequence body
      ((λ k : nat, Z.of_nat len - 1 - 2 * Z.of_nat k)
         <$> seq 0 (len / 2)%nat).
Proof.
  rewrite for_down_sequence, down_indices_closed. do 3 f_equal.
  replace (Z.of_nat len - 1 + 1) with (Z.of_nat len) by lia.
  change 2 with (Z.of_nat 2). by rewrite <-Nat2Z.inj_div, Nat2Z.id.
Qed.

(** X10.  When the row count is odd (the last index is even) and every
    row is on the page, the click on the menu control completes but pairs
    the rows the other way round: from row 1 on, the even rows get the
    class and the odd rows get the style. *)
Theorem odd_row_count_shifts_pairs d t m label tb len :
  id_of t d = Some main_menu → element_by_id main_menu d = Some m →
  text_of m d = Some label →
  first_by_class result_table d = Some tb →
  d !! tb ≫= rows_length = Some len →
  Z.even (Z.of_nat len - 1) = true →
  every_row_present d (Z.of_nat len - 1) →
  outcome (click t) d = Normal ()
  ∧ text_of m (after (click t) d) = Some (menu_action label).1.1
  ∧ ∀ k j, 1 ≤ k ≤ Z.of_nat len - 1 →
      element_by_id (row_id k) d = Some j →
      (Z.even k = true →
       class_of j (after (click t) d) = Some (menu_action label).1.2)
      ∧ (Z.odd k = true →
         style_of j (after (click t) d) = Some (menu_action label).2).
Proof.
  intros Ht Hm Hl Htb Hlen Hev Hrows.
  pose proof (click_menu_marks _ _ _ _ _ _ Ht Hm Hl Htb Hlen Hrows) as H.
  destruct (menu_action label) as [[label' cv] sv]. cbn [fst snd].
  destruct H as (d' & E & Htext & _ & Hall).
  unfold outcome, after. rewrite E. cbn [fst snd].
  split_and!; [done..|]. intros k j Hk Hj. split; intros Hpar.
  - apply (Hall k); [|done]. apply elem_of_down_indices.
    split; [lia|]. by rewrite Z.even_sub, Hev, Hpar.
  - apply (Hall (k + 1)).
    + apply elem_of_down_indices.
      rewrite Z.even_sub, Hev, Z.even_add, <-Z.negb_odd, Hpar.
      split; [|done]. destruct (decide (k = Z.of_nat len - 1)); [|lia].
      subst k. by rewrite <-Z.negb_odd, Hpar in Hev.
    + by replace (k + 1 - 1) with k by lia.
Qed.

Lemma odd_row_count_shifts_pairs_witness :
  class_of 6 (after (click 0%nat) page_five_rows) = Some Null
  ∧ style_of 5 (after (click 0%nat) page_five_rows) = Some border_green
  ∧ class_of 4 (after (click 0%nat) page_five_rows) = Some Null
  ∧ style_of 3 (after (click 0%nat) page_five_rows) = Some border_green.
Proof.
  destruct (odd_row_count_shifts_pairs page_five_rows 0 0 "Expand" 1 5)
    as (_ & _ & H); [reflexivity..| |].
  - intros k Hk.
    assert (k = 0 ∨ k = 1 ∨ k = 2 ∨ k = 3 ∨ k = 4)
      as [-> | [-> | [-> | [-> | ->]]]] by lia;
      vm_compute; eexists; reflexivity.
  - destruct (H 4 6%nat) as [H4 _]; [lia|reflexivity|].
    destruct (H 3 5%nat) as [_ H3]; [lia|reflexivity|].
    destruct (H 2 4%nat) as [H2 _]; [lia|reflexivity|].
    destruct (H 1 3%nat) as [_ H1]; [lia|reflexivity|].
    split_and!; [exact (H4 eq_refl)|exact (H3 eq_refl)
                |exact (H2 eq_refl)|exact (H1 eq_refl)].
Defined.
